(** * openmw-mm-cli: the command-line front end of the OpenMW mod manager

    A shallow embedding of [openmw-mm-cli.py].  The script is orchestration
    code over the packages [lib.omwconfig], [lib.esm], [lib.config] and
    [lib.core]; their operations are the fields of the class [Library]
    below, and every call with an effect outside the interpreter (a line
    printed, a file parsed, a document folded in, a file written) is
    recorded as an [event] of the run. *)

From Stdlib Require Import String Ascii List NArith ZArith Bool Lia.
From Stdlib Require Import Permutation Sorted DecimalString.
Import ListNotations.
Open Scope string_scope.

(** ** Python built-ins used by the script *)

Module Py.

(** [s.split(sep)] for a one-character separator: never an empty list,
    [len(result) = s.count(sep) + 1]. *)
Fixpoint split (sep : ascii) (s : string) : list string :=
  match s with
  | EmptyString => [EmptyString]
  | String c s' =>
      if Ascii.eqb c sep then EmptyString :: split sep s'
      else match split sep s' with
           | h :: t => String c h :: t
           | [] => [String c EmptyString]
           end
  end.

(** [x in l] for a list of [str]. *)
Definition mem (x : string) (l : list string) : bool :=
  existsb (String.eqb x) l.

(** [s.rstrip("\x00")]. *)
Fixpoint rstrip_nul (s : string) : string :=
  match s with
  | EmptyString => EmptyString
  | String c s' =>
      match rstrip_nul s' with
      | EmptyString => if Ascii.eqb c zero then EmptyString else String c EmptyString
      | r => String c r
      end
  end.

Definition starts_with_slash (s : string) : bool :=
  match s with
  | String c _ => Ascii.eqb c "/"
  | EmptyString => false
  end.

Fixpoint ends_with_slash (s : string) : bool :=
  match s with
  | EmptyString => false
  | String c EmptyString => Ascii.eqb c "/"
  | String _ s' => ends_with_slash s'
  end.

(** [os.path.join(a, b)] of [posixpath], two arguments. *)
Definition path_join (a b : string) : string :=
  if starts_with_slash b then b
  else if (String.eqb a "" || ends_with_slash a)%bool then a ++ b
  else a ++ "/" ++ b.

(** [sorted(l)]: the comparison is passed in; [str] compares byte by
    byte, which is [String.leb]. *)
Section Sorted.
Context {A : Type} (leb : A -> A -> bool).

Fixpoint insert (x : A) (l : list A) : list A :=
  match l with
  | [] => [x]
  | y :: l' => if leb x y then x :: l else y :: insert x l'
  end.

Fixpoint sorted (l : list A) : list A :=
  match l with
  | [] => []
  | x :: l' => insert x (sorted l')
  end.
End Sorted.

(** Truth value of an [int]. *)
Definition truthy (n : Z) : bool := negb (n =? 0)%Z.

End Py.

(** ** Objects handed out by the library *)

(** A plugin as the script sees it: [get_name()], [get_path()],
    [is_enabled()]. *)
Record Plugin := mkPlugin {
  plugin_name : string;
  plugin_path : string;
  plugin_enabled : bool
}.

(** A mod directory: [get_name()], [get_path()], [get_plugins()]. *)
Record Mod := mkMod {
  mod_name : string;
  mod_path : string;
  mod_plugins : list Plugin
}.

(** [ConfigEntry(key, value)]. *)
Record ConfigEntry := mkEntry {
  entry_key : string;
  entry_value : string
}.

(** The report returned by [merge_with]: record type, then status, then
    the names of the lists in that category.  Each level is a [dict];
    it is kept as an association list in the order [keys()] yields. *)
Definition Category : Type := string * list string.
Definition Diff : Type := list (string * list Category).

(** ** Effects *)

Inductive event :=
| EPrint (line : string)
| EParse (path : string)
| EMerge (p : Plugin)
| EEsmWrite (out : string)
| ECfgRemove (e : ConfigEntry)
| EEnable (p : Plugin)
| EDisable (p : Plugin)
| ECfgWrite.

Inductive outcome (A : Type) :=
| Ret (a : A)
| Exit (code : Z).
Arguments Ret {A} a.
Arguments Exit {A} code.

(** A run: the events so far, and either a value or [SystemExit(code)]. *)
Definition M (A : Type) : Type := list event * outcome A.

Definition ret {A} (a : A) : M A := ([], Ret a).

Definition bind {A B} (m : M A) (f : A -> M B) : M B :=
  match m with
  | (t, Ret a) => let (t', o) := f a in ((t ++ t')%list, o)
  | (t, Exit c) => (t, Exit c)
  end.

Definition emit (e : event) : M unit := ([e], Ret tt).
Definition print (line : string) : M unit := emit (EPrint line).
Definition sys_exit {A} (code : Z) : M A := ([], Exit code).

Notation "x <- m ;; k" := (bind m (fun x => k))
  (at level 61, m at next level, right associativity).
Notation "m ;;; k" := (bind m (fun _ => k))
  (at level 61, right associativity).

(** A [for] loop that carries the mutated object along. *)
Fixpoint foldM {S A} (body : S -> A -> M S) (s : S) (l : list A) : M S :=
  match l with
  | [] => ret s
  | x :: l' => s' <- body s x ;; foldM body s' l'
  end.

Definition trace {A} (m : M A) : list event := fst m.
Definition result {A} (m : M A) : outcome A := snd m.

(** ** The library interface *)

Class Library := {
  ConfigFile : Type;
  Esm : Type;
  (* lib.core *)
  get_full_path : string -> string;
  get_base_dir : string;
  get_orphaned_plugins : ConfigFile -> list string;
  find_plugin : ConfigFile -> string -> option Plugin;
  (* lib.omwconfig *)
  load_config : string -> ConfigFile;
  get_mods : ConfigFile -> list Mod;
  find_key : ConfigFile -> string -> list ConfigEntry;
  cfg_remove : ConfigFile -> ConfigEntry -> ConfigFile;
  plugin_enable : Plugin -> ConfigFile -> ConfigFile;
  plugin_disable : Plugin -> ConfigFile -> ConfigFile;
  (* lib.config *)
  never_merge : string;
  (* lib.esm *)
  parse_records : string -> Esm;
  merge_with : Esm -> Esm -> Esm * (Diff * Z);
  (* os.path.exists *)
  path_exists : string -> bool
}.

(** ** The diff report of [merge_lists] (lines 262-277) *)

Definition tab : string := String "009" EmptyString.

Definition heading (s : string) : string := tab ++ " ==== " ++ s ++ " ====".
Definition entry_line (name : string) : string := tab ++ tab ++ Py.rstrip_nul name.

Definition lname (rec : string) : string :=
  if String.eqb rec "LEVC" then "Leveled Creatures" else "Leveled Items".

(** The [for status in diff[rec].keys()] loop; [printed] is the flag of
    the same name. *)
Fixpoint report_statuses (label : string) (printed : bool) (sts : list Category)
  : list string :=
  match sts with
  | [] => []
  | (status, names) :: rest =>
      match names with
      | [] => report_statuses label printed rest
      | _ :: _ =>
          ((if printed then [] else [heading label])
           ++ heading status
           :: map entry_line (Py.sorted String.leb names)
           ++ report_statuses label true rest)%list
      end
  end.

Definition report_record (block : string * list Category) : list string :=
  report_statuses (lname (fst block)) false (snd block).

(** The [for rec in diff.keys()] loop. *)
Definition report_diff (diff : Diff) : list string :=
  flat_map report_record diff.

Definition print_lines (ls : list string) : M unit :=
  (map EPrint ls, Ret tt).

Section Commands.
Context {L : Library}.

(** ** [merge_lists] (lines 236-281) *)

(** The test of line 257. *)
Definition selected (blacklist : list string) (p : Plugin) : bool :=
  negb (Py.mem (plugin_name p) blacklist) && plugin_enabled p.

(** The body of the inner loop, lines 257-277; [merge_with] changes
    [merged] in place, here it hands the changed document back. *)
Definition merge_plugin (blacklist : list string) (merged : Esm) (plugin : Plugin)
  : M Esm :=
  if selected blacklist plugin then
    print ("Merging: " ++ plugin_name plugin) ;;;
    emit (EParse (plugin_path plugin)) ;;;
    let to_merge := parse_records (plugin_path plugin) in
    emit (EMerge plugin) ;;;
    let '(merged', (diff, ndiff)) := merge_with merged to_merge in
    (if Py.truthy ndiff then print_lines (report_diff diff) else ret tt) ;;;
    ret merged'
  else ret merged.

(** The body of the outer loop, lines 254-256. *)
Definition merge_mod (blacklist : list string) (merged : Esm) (mod_ : Mod)
  : M Esm :=
  match mod_plugins mod_ with
  | [] => ret merged
  | plugins => foldM (merge_plugin blacklist) merged plugins
  end.

Definition blacklist : list string := Py.split "," never_merge.

Definition empty_esp : string := Py.path_join get_base_dir "./empty.esp".

Definition default_out : string := "./Merged_Lists.esp".

(** The model returns the document it hands to [write]. *)
Definition merge_lists (omw_cfg : string) (out : option string) : M Esm :=
  let cfg := load_config omw_cfg in
  let mods := get_mods cfg in
  match mods with
  | [] => print "Nothing to merge!" ;;; sys_exit 1
  | _ :: _ =>
      emit (EParse empty_esp) ;;;
      let merged := parse_records empty_esp in
      merged <- foldM (merge_mod blacklist) merged mods ;;
      let out := match out with
                 | None | Some EmptyString => default_out
                 | Some o => o
                 end in
      emit (EEsmWrite out) ;;;
      ret merged
  end.

(** ** [enable_plugin] (lines 191-210), [disable_plugin] (lines 214-233) *)

Definition enable_plugin (omw_cfg plugin_name : string) : M ConfigFile :=
  let cfg := load_config (get_full_path omw_cfg) in
  match find_plugin cfg plugin_name with
  | None => print ("Could not find plugin " ++ plugin_name ++ ".") ;;; sys_exit 1
  | Some plugin =>
      if plugin_enabled plugin then
        print ("Plugin " ++ plugin_name ++ " is already enabled.") ;;; sys_exit 1
      else
        print ("Enabling " ++ plugin_name ++ ".") ;;;
        emit (EEnable plugin) ;;;
        let cfg := plugin_enable plugin cfg in
        emit ECfgWrite ;;;
        ret cfg
  end.

Definition disable_plugin (omw_cfg plugin_name : string) : M ConfigFile :=
  let cfg := load_config (get_full_path omw_cfg) in
  match find_plugin cfg plugin_name with
  | None => print ("Could not find plugin " ++ plugin_name ++ ".") ;;; sys_exit 1
  | Some plugin =>
      (if negb (plugin_enabled plugin)
       then print ("Plugin " ++ plugin_name ++ " is already enabled.")
       else ret tt) ;;;
      print ("Disabling " ++ plugin_name) ;;;
      emit (EDisable plugin) ;;;
      let cfg := plugin_disable plugin cfg in
      emit ECfgWrite ;;;
      ret cfg
  end.

(** ** [clean_mods] (lines 34-63) *)

(** The first loop: [bad_mods] and the configuration after the removals.
    [find_key] is taken to hand out a list of its own, which [remove]
    leaves alone. *)
Definition clean_entry (st : list ConfigEntry * ConfigFile) (entry : ConfigEntry)
  : M (list ConfigEntry * ConfigFile) :=
  let '(bad_mods, cfg) := st in
  if negb (path_exists (entry_value entry)) then
    print ("Removing data entry for " ++ entry_value entry) ;;;
    emit (ECfgRemove entry) ;;;
    ret ((bad_mods ++ [entry])%list, cfg_remove cfg entry)
  else ret st.

Definition clean_plugin (cfg : ConfigFile) (plugin : string) : M ConfigFile :=
  let entry := mkEntry "content" plugin in
  print ("Removing content entry for " ++ plugin) ;;;
  emit (ECfgRemove entry) ;;;
  ret (cfg_remove cfg entry).

Definition clean_mods (omw_cfg : string) : M ConfigFile :=
  let cfg := load_config (get_full_path omw_cfg) in
  st <- foldM clean_entry ([], cfg) (find_key cfg "data") ;;
  let '(bad_mods, cfg) := st in
  (match bad_mods with
   | [] => print "No invalid data entries found!"
   | _ :: _ => ret tt
   end) ;;;
  let bad_plugins := get_orphaned_plugins cfg in
  cfg <- (match bad_plugins with
          | [] => print "No invalid content entries found!" ;;; ret cfg
          | _ :: _ => foldM clean_plugin cfg bad_plugins
          end) ;;
  match bad_mods, bad_plugins with
  | [], [] => ret cfg
  | _, _ => emit ECfgWrite ;;; ret cfg
  end.

End Commands.

(** ** Reading a run *)

(** The plugins handed to [merge_with], in the order of the calls. *)
Fixpoint merged_plugins (t : list event) : list Plugin :=
  match t with
  | [] => []
  | EMerge p :: t' => p :: merged_plugins t'
  | _ :: t' => merged_plugins t'
  end.

(** The files given to the [Esm] constructor, in the order of the calls. *)
Fixpoint parsed_paths (t : list event) : list string :=
  match t with
  | [] => []
  | EParse path :: t' => path :: parsed_paths t'
  | _ :: t' => parsed_paths t'
  end.

(** Calls that write a file: [ConfigFile.write] and [Esm.write]. *)
Definition is_write (e : event) : bool :=
  match e with
  | EEsmWrite _ | ECfgWrite => true
  | _ => false
  end.

Definition writes (t : list event) : list event := filter is_write t.


Section Readings.
Context {L : Library}.

(** One step of the fold: what [merge_with] leaves in [merged]. *)
Definition fold_step (merged : Esm) (plugin : Plugin) : Esm :=
  fst (merge_with merged (parse_records (plugin_path plugin))).

(** Every plugin of the configuration, mod by mod. *)
Definition listed_plugins (omw_cfg : string) : list Plugin :=
  flat_map mod_plugins (get_mods (load_config omw_cfg)).

Definition merge_sequence (omw_cfg : string) : list Plugin :=
  filter (selected blacklist) (listed_plugins omw_cfg).

(** The default destination the docstring of [merge_lists] and the help
    text of [--output] give. *)
Definition documented_default_out : string := "./merged.esp".

End Readings.


Definition nonempty_category (c : Category) : bool :=
  match snd c with
  | [] => false
  | _ :: _ => true
  end.


(** A report with its empty categories dropped. *)
Definition prune (diff : Diff) : Diff :=
  map (fun block => (fst block, filter nonempty_category (snd block))) diff.

(** ** A test double of the library

    An in-memory configuration; a document is the list of the files that
    were folded into it. *)
Module Double.

Record Config := mkConfig {
  entries : list ConfigEntry;
  mods : list Mod
}.

Definition entry_eqb (a b : ConfigEntry) : bool :=
  String.eqb (entry_key a) (entry_key b) && String.eqb (entry_value a) (entry_value b).

Definition all_plugins (c : Config) : list Plugin := flat_map mod_plugins (mods c).

Definition set_enabled (name : string) (b : bool) (p : Plugin) : Plugin :=
  if String.eqb (plugin_name p) name
  then mkPlugin (plugin_name p) (plugin_path p) b
  else p.

Definition update_plugins (f : Plugin -> Plugin) (c : Config) : Config :=
  mkConfig (entries c)
    (map (fun m => mkMod (mod_name m) (mod_path m) (map f (mod_plugins m))) (mods c)).

Definition orphaned (c : Config) : list string :=
  map entry_value
    (filter (fun e => String.eqb (entry_key e) "content"
                      && negb (Py.mem (entry_value e) (map plugin_name (all_plugins c))))
       (entries c)).

Definition library (disk : string -> Config) (on_disk : string -> bool)
  (base never : string) (report : Diff * Z) : Library :=
  {| ConfigFile := Config;
     Esm := list string;
     get_full_path := fun p => p;
     get_base_dir := base;
     get_orphaned_plugins := orphaned;
     find_plugin := fun c name =>
       find (fun p => String.eqb (plugin_name p) name) (all_plugins c);
     load_config := disk;
     get_mods := mods;
     find_key := fun c key => filter (fun e => String.eqb (entry_key e) key) (entries c);
     cfg_remove := fun c e =>
       mkConfig (filter (fun e' => negb (entry_eqb e e')) (entries c)) (mods c);
     plugin_enable := fun p c => update_plugins (set_enabled (plugin_name p) true) c;
     plugin_disable := fun p c => update_plugins (set_enabled (plugin_name p) false) c;
     never_merge := never;
     parse_records := fun path => [path];
     merge_with := fun merged to_merge => ((merged ++ to_merge)%list, report);
     path_exists := on_disk |}.

Definition rats : Plugin := mkPlugin "Rats.esp" "/mods/rats/Rats.esp" true.
Definition bats : Plugin := mkPlugin "Bats.esp" "/mods/bats/Bats.esp" true.
Definition cats : Plugin := mkPlugin "Cats.esp" "/mods/bats/Cats.esp" false.
Definition gnats : Plugin := mkPlugin "Gnats.esp" "/mods/bats/Gnats.esp" true.

Definition one_plugin : Config :=
  mkConfig [mkEntry "data" "/mods/rats"; mkEntry "content" "Rats.esp"]
           [mkMod "rats" "/mods/rats" [rats]].

Definition two_mods : Config :=
  mkConfig [mkEntry "data" "/mods/rats"; mkEntry "data" "/mods/bats";
            mkEntry "content" "Rats.esp"; mkEntry "content" "Bats.esp";
            mkEntry "content" "Gnats.esp"]
           [mkMod "rats" "/mods/rats" [rats];
            mkMod "bats" "/mods/bats" [bats; cats; gnats]].

Definition no_mods : Config := mkConfig [] [].

(** A configuration to clean: one data entry points nowhere and one
    content entry names a plugin no mod has. *)
Definition stale : Config :=
  mkConfig [mkEntry "data" "/mods/rats"; mkEntry "data" "/mods/gone";
            mkEntry "content" "Rats.esp"; mkEntry "content" "Gone.esp"]
           [mkMod "rats" "/mods/rats" [rats]].

Definition disk (path : string) : Config :=
  if String.eqb path "one.cfg" then one_plugin
  else if String.eqb path "two.cfg" then two_mods
  else if String.eqb path "stale.cfg" then stale
  else no_mods.

Definition on_disk (path : string) : bool :=
  Py.mem path ["/mods/rats"; "/mods/bats"].

Definition sample_report : Diff * Z :=
  ([("LEVC", [("Added", ["rat_b"; "rat_a"]); ("Removed", [])]);
    ("LEVI", [("Added", []); ("Removed", [])])], 2%Z).

Definition lib : Library := library disk on_disk "/opt/omw" "Bats.esp" sample_report.

End Double.

(** ** LeveledListCodec

    [lib.esm] is not part of the script; the codec below follows sections
    3, 4.2 and 6 of the specification. *)
Module Codec.

Import Stdlib.Init.Byte.

Definition bytes : Type := list byte.

(** Modelled from the spec: the kind of a LeveledList (section 3). *)
Inductive Kind := Item | Creature.

(** Modelled from the spec: the Entry of section 3, a (reference
    identifier, level) pair. *)
Record Entry := mkRef {
  ref_id : string;
  level : Z
}.

(** Modelled from the spec: the identifier, kind and scalar flags of a
    LeveledList (section 3), everything but its entries. *)
Record Head := mkHead {
  head_id : string;
  head_kind : Kind;
  chance_none : Z;
  calc_from_all_levels : bool
}.

(** Modelled from the spec: the LeveledList of section 3. *)
Record LeveledList := mkList {
  ll_head : Head;
  ll_entries : list Entry
}.

(** Modelled from the spec: the on-disk form of one field.  The
    specification fixes the order of the fields and no widths, so a field
    is any way to [put] a value in front of the remaining bytes and to
    [get] it back; [fits] tells which values the field can hold. *)
Record Field (A : Type) := mkField {
  put : A -> bytes;
  get : bytes -> option (A * bytes);
  fits : A -> bool
}.
Arguments put {A} _ _.
Arguments get {A} _ _.
Arguments fits {A} _ _.

Definition lawful {A} (f : Field A) : Prop :=
  forall a rest, fits f a = true -> get f (put f a ++ rest)%list = Some (a, rest).

(** Modelled from the spec: the layout of a leveled-list payload
    (section 6): the identifier, kind and flags, then a count prefix, then
    count (reference identifier, level) pairs. *)
Record Layout := mkLayout {
  head_field : Field Head;
  count_field : Field nat;
  entry_field : Field Entry
}.

Definition lawful_layout (ly : Layout) : Prop :=
  lawful (head_field ly) /\ lawful (count_field ly) /\ lawful (entry_field ly).

(** Modelled from the spec: the valid levels are the positive integers
    (section 4.2). *)
Definition level_ok (e : Entry) : bool := (0 <? level e)%Z.

(** Modelled from the spec: the canonical order of section 4.2, by
    reference identifier, then by level. *)
Definition entry_leb (a b : Entry) : bool :=
  match String.compare (ref_id a) (ref_id b) with
  | Lt => true
  | Eq => (level a <=? level b)%Z
  | Gt => false
  end.

Definition canonical (es : list Entry) : list Entry := Py.sorted entry_leb es.

(** Modelled from the spec: what [decode] gives, a list or the failure
    [CorruptListRecord] (section 4.2). *)
Inductive decoded :=
| Decoded (l : LeveledList)
| CorruptListRecord.

Section WithLayout.
Variable ly : Layout.

(** Modelled from the spec: [encode] of section 4.2. *)
Definition encode (l : LeveledList) : bytes :=
  let es := canonical (ll_entries l) in
  (put (head_field ly) (ll_head l)
   ++ put (count_field ly) (length es)
   ++ flat_map (put (entry_field ly)) es)%list.

(** Modelled from the spec: the [n] pairs that follow the count prefix
    (section 6); a level that is not positive is refused (section 4.2). *)
Fixpoint get_entries (n : nat) (b : bytes) : option (list Entry * bytes) :=
  match n with
  | O => Some ([], b)
  | S n' =>
      match get (entry_field ly) b with
      | None => None
      | Some (e, rest) =>
          if level_ok e then
            match get_entries n' rest with
            | Some (es, rest') => Some (e :: es, rest')
            | None => None
            end
          else None
      end
  end.

(** Modelled from the spec: [decode] of section 4.2; it fails when the
    declared count does not match the bytes that follow, or a level is
    not positive. *)
Definition decode (b : bytes) : decoded :=
  match get (head_field ly) b with
  | None => CorruptListRecord
  | Some (h, b1) =>
      match get (count_field ly) b1 with
      | None => CorruptListRecord
      | Some (n, b2) =>
          match get_entries n b2 with
          | Some (es, []) => Decoded (mkList h es)
          | _ => CorruptListRecord
          end
      end
  end.

(** The invariant of section 3 (no duplicate pair, positive levels), for
    a list the layout can hold. *)
Definition well_formed (l : LeveledList) : Prop :=
  fits (head_field ly) (ll_head l) = true
  /\ fits (count_field ly) (length (ll_entries l)) = true
  /\ Forall (fun e => fits (entry_field ly) e = true /\ level_ok e = true) (ll_entries l)
  /\ NoDup (ll_entries l).

End WithLayout.

Definition same_entries (a b : list Entry) : Prop :=
  forall e, In e a <-> In e b.

Definition entry_le (a b : Entry) : Prop := entry_leb a b = true.

(** *** A layout with fixed-width little-endian numbers

    One layout that can be read back; the specification does not
    prescribe it. *)

Definition byte_of_N (n : N) : byte :=
  match Byte.of_N (n mod 256) with
  | Some b => b
  | None => x00
  end.

Fixpoint put_le (w : nat) (n : N) : bytes :=
  match w with
  | O => []
  | S w' => byte_of_N n :: put_le w' (n / 256)
  end.

Fixpoint get_le (w : nat) (b : bytes) : option (N * bytes) :=
  match w with
  | O => Some (0%N, b)
  | S w' =>
      match b with
      | [] => None
      | x :: b' =>
          match get_le w' b' with
          | Some (v, rest) => Some ((Byte.to_N x + 256 * v)%N, rest)
          | None => None
          end
      end
  end.

Definition le_field (w : nat) : Field N :=
  mkField N (put_le w) (get_le w) (fun n => (n <? 256 ^ N.of_nat w)%N).

(** A field seen through a pair of conversions; [dom] is where they are
    inverse to each other. *)
Definition conv_field {A B} (to : A -> B) (from : B -> A) (dom : B -> bool)
  (f : Field A) : Field B :=
  mkField B (fun b => put f (from b))
    (fun bs => match get f bs with
               | Some (a, rest) => Some (to a, rest)
               | None => None
               end)
    (fun b => dom b && fits f (from b)).

Definition pair_field {A B} (fa : Field A) (fb : Field B) : Field (A * B) :=
  mkField (A * B)
    (fun ab => (put fa (fst ab) ++ put fb (snd ab))%list)
    (fun bs => match get fa bs with
               | Some (a, rest) =>
                   match get fb rest with
                   | Some (b, rest') => Some ((a, b), rest')
                   | None => None
                   end
               | None => None
               end)
    (fun ab => fits fa (fst ab) && fits fb (snd ab)).

(** A string: its length on four bytes, then its bytes. *)
Definition string_field : Field string :=
  mkField string
    (fun s => let bs := list_byte_of_string s in
              (put_le 4 (N.of_nat (length bs)) ++ bs)%list)
    (fun b => match get_le 4 b with
              | Some (n, rest) =>
                  if (N.to_nat n <=? length rest)%nat
                  then Some (string_of_list_byte (firstn (N.to_nat n) rest),
                             skipn (N.to_nat n) rest)
                  else None
              | None => None
              end)
    (fun s => (N.of_nat (length (list_byte_of_string s)) <? 256 ^ 4)%N).

Definition nat_field (w : nat) : Field nat :=
  conv_field N.to_nat N.of_nat (fun _ => true) (le_field w).

Definition Z_field (w : nat) : Field Z :=
  conv_field Z.of_N Z.to_N (fun z => (0 <=? z)%Z) (le_field w).

Definition kind_of_N (n : N) : Kind := if (n =? 0)%N then Item else Creature.
Definition N_of_kind (k : Kind) : N := match k with Item => 0%N | Creature => 1%N end.
Definition bool_of_N (n : N) : bool := negb (n =? 0)%N.
Definition N_of_bool (b : bool) : N := if b then 1%N else 0%N.

Definition kind_field : Field Kind :=
  conv_field kind_of_N N_of_kind (fun _ => true) (le_field 1).

Definition bool_field : Field bool :=
  conv_field bool_of_N N_of_bool (fun _ => true) (le_field 1).

Definition entry_le_field : Field Entry :=
  conv_field (fun p => mkRef (fst p) (snd p)) (fun e => (ref_id e, level e))
    (fun _ => true) (pair_field string_field (Z_field 2)).

Definition head_le_field : Field Head :=
  conv_field
    (fun p => mkHead (fst (fst (fst p))) (snd (fst (fst p))) (snd (fst p)) (snd p))
    (fun h => (head_id h, head_kind h, chance_none h, calc_from_all_levels h))
    (fun _ => true)
    (pair_field (pair_field (pair_field string_field kind_field) (Z_field 1)) bool_field).

Definition le_layout : Layout :=
  mkLayout head_le_field (nat_field 4) entry_le_field.

(** The list of section 8 of the specification, entries out of order. *)
Definition creature_rats : LeveledList :=
  mkList (mkHead "creature_rats" Creature 0 true)
         [mkRef "ratB" 2; mkRef "ratA" 1].

Definition creature_rats' : LeveledList :=
  mkList (mkHead "creature_rats" Creature 0 true)
         [mkRef "ratA" 1; mkRef "ratB" 2].

End Codec.

(** * The other commands *)

(** ** More of [os.path] and of string formatting *)

Module PyPath.

(** [os.path.sep in s]. *)
Fixpoint has_sep (s : string) : bool :=
  match s with
  | EmptyString => false
  | String c s' => (Ascii.eqb c "/" || has_sep s')%bool
  end.

(** [(p[:i], p[i:])] for [i = p.rfind('/') + 1], the first step of
    [posixpath.basename] and [posixpath.dirname]. *)
Fixpoint split_at_last_sep (p : string) : string * string :=
  match p with
  | EmptyString => (EmptyString, EmptyString)
  | String c p' =>
      if has_sep p' then
        let (head, tail) := split_at_last_sep p' in (String c head, tail)
      else if Ascii.eqb c "/" then (String c EmptyString, p')
      else (EmptyString, p)
  end.

(** [os.path.basename(p)]. *)
Definition basename (p : string) : string := snd (split_at_last_sep p).

(** [s.rstrip('/')]. *)
Fixpoint rstrip_sep (s : string) : string :=
  match s with
  | EmptyString => EmptyString
  | String c s' =>
      match rstrip_sep s' with
      | EmptyString => if Ascii.eqb c "/" then EmptyString else String c EmptyString
      | r => String c r
      end
  end.

(** [s == '/' * len(s)]. *)
Fixpoint all_sep (s : string) : bool :=
  match s with
  | EmptyString => true
  | String c s' => (Ascii.eqb c "/" && all_sep s')%bool
  end.

(** [os.path.dirname(p)]. *)
Definition dirname (p : string) : string :=
  let head := fst (split_at_last_sep p) in
  if (negb (String.eqb head "") && negb (all_sep head))%bool
  then rstrip_sep head
  else head.

(** ["%d" % n]. *)
Definition format_d (n : Z) : string :=
  DecimalString.NilEmpty.string_of_int (Z.to_int n).

End PyPath.

(** ** The rest of the library *)

(** The calls of [install_mod], [uninstall_mod] and [list_plugins] that
    the commands above do not make. *)
Class LibraryExt (L : Library) := {
  (* lib.config: config.get("General", "mods_dir") *)
  mods_dir : string;
  (* os.path.isdir *)
  is_dir : string -> bool;
  (* lib.core *)
  is_mod_dir : string -> bool;
  copy_to_mod_dir : string -> string -> string;
  get_enabled_plugins : ConfigFile -> list Plugin;
  get_disabled_plugins : ConfigFile -> list Plugin;
  (* lib.omwconfig *)
  add_entry : ConfigFile -> ConfigEntry -> ConfigFile;
  mod_entry : Mod -> ConfigEntry;
  entry_str : ConfigEntry -> string;
  plugin_order : Plugin -> Z
}.

(** The effects of [install_mod] and [uninstall_mod]: those of [event],
    and the calls that copy or delete a mod directory and that add an
    entry to the configuration. *)
Inductive xevent :=
| XBase (e : event)
| XCopy (src dest : string)
| XCfgAdd (e : ConfigEntry)
| XRmModDir (path : string).

Definition MX (A : Type) : Type := list xevent * outcome A.

Definition xret {A} (a : A) : MX A := ([], Ret a).

Definition xbind {A B} (m : MX A) (f : A -> MX B) : MX B :=
  match m with
  | (t, Ret a) => let (t', o) := f a in ((t ++ t')%list, o)
  | (t, Exit c) => (t, Exit c)
  end.

Definition xtrace {A} (m : MX A) : list xevent := fst m.
Definition xresult {A} (m : MX A) : outcome A := snd m.

Definition xemit (e : xevent) : MX unit := ([e], Ret tt).
Definition xprint (line : string) : MX unit := xemit (XBase (EPrint line)).
Definition xexit {A} (code : Z) : MX A := ([], Exit code).

Notation "x <~ m ;; k" := (xbind m (fun x => k))
  (at level 61, m at next level, right associativity).
Notation "m ~;; k" := (xbind m (fun _ => k))
  (at level 61, right associativity).

Fixpoint xfoldM {S A} (body : S -> A -> MX S) (s : S) (l : list A) : MX S :=
  match l with
  | [] => xret s
  | x :: l' => s' <~ body s x ;; xfoldM body s' l'
  end.

(** A [for] loop without a carried object. *)
Definition for_each {A} (body : A -> M unit) (l : list A) : M unit :=
  foldM (fun _ x => body x) tt l.

Definition is_print (e : event) : bool :=
  match e with
  | EPrint _ => true
  | _ => false
  end.

Definition is_xprint (e : xevent) : bool :=
  match e with
  | XBase e' => is_print e'
  | _ => false
  end.

(** A run without its printed lines: the calls into the library. *)
Definition calls (t : list event) : list event :=
  filter (fun e => negb (is_print e)) t.

Definition xcalls (t : list xevent) : list xevent :=
  filter (fun e => negb (is_xprint e)) t.

(** The lines printed, in order. *)
Fixpoint printed_lines (t : list event) : list string :=
  match t with
  | [] => []
  | EPrint line :: t' => line :: printed_lines t'
  | _ :: t' => printed_lines t'
  end.

(** The entries handed to [ConfigFile.remove], in order. *)
Fixpoint removed_entries (t : list event) : list ConfigEntry :=
  match t with
  | [] => []
  | ECfgRemove e :: t' => e :: removed_entries t'
  | _ :: t' => removed_entries t'
  end.

Definition nul_run (k : nat) : string :=
  string_of_list_ascii (repeat zero k).

Section MoreCommands.
Context {L : Library} {X : LibraryExt L}.

(** ** [list_mods] (lines 11-31) *)

Definition list_mods (omw_cfg : string) (in_dir : option string) (path : bool)
  : M unit :=
  let cfg := load_config (get_full_path omw_cfg) in
  let mods := get_mods cfg in
  let mods :=
    match in_dir with
    | None | Some EmptyString => mods
    | Some d =>
        let d := get_full_path d in
        filter (fun m => String.eqb (PyPath.dirname (mod_path m)) d) mods
    end in
  if path then for_each (fun m => print (mod_path m)) mods
  else for_each (fun m => print (mod_name m)) mods.

(** ** [uninstall_mod] (lines 68-112) *)

(** The path the mod is looked up under, lines 78-82. *)
Definition uninstall_target (mod_name : string) : string :=
  if PyPath.has_sep mod_name then get_full_path mod_name
  else Py.path_join mods_dir mod_name.

(** The body of the loop of lines 101-104. *)
Definition disable_if_enabled (cfg : ConfigFile) (plugin : Plugin) : MX ConfigFile :=
  if plugin_enabled plugin then
    xprint ("Disabling " ++ plugin_name plugin) ~;;
    xemit (XBase (EDisable plugin)) ~;;
    xret (plugin_disable plugin cfg)
  else xret cfg.

Definition uninstall_mod (omw_cfg mod_name : string) (clean rm : bool)
  : MX ConfigFile :=
  let target := uninstall_target mod_name in
  if negb (path_exists target) then
    xprint ("No such file or directory " ++ mod_name
            ++ ". Try the clean command if the mod is already deleted") ~;;
    xexit 1
  else
    let cfg := load_config (get_full_path omw_cfg) in
    match find (fun m => String.eqb (mod_path m) target) (get_mods cfg) with
    | None =>
        xprint ("Could not find any reference to " ++ mod_name
                ++ ", are you sure its installed?") ~;;
        xexit 1
    | Some mod_ =>
        cfg <~ (if clean then
                  match mod_plugins mod_ with
                  | [] => xret cfg
                  | plugins => xfoldM disable_if_enabled cfg plugins
                  end
                else xret cfg) ;;
        xprint ("Removing entry " ++ entry_str (mod_entry mod_)
                ++ " from openmw.cfg") ~;;
        xemit (XBase (ECfgRemove (mod_entry mod_))) ~;;
        let cfg := cfg_remove cfg (mod_entry mod_) in
        xemit (XBase ECfgWrite) ~;;
        (if rm then
           xprint ("Deleting mod in " ++ mod_path mod_) ~;;
           xemit (XRmModDir (mod_path mod_))
         else xret tt) ~;;
        xret cfg
    end.

(** ** [install_mod] (lines 115-148) *)

(** The path whose existence refuses the installation, line 135. *)
Definition install_collision (src dest : string) : string :=
  Py.path_join (get_full_path dest) (PyPath.basename src).

Definition install_mod (omw_cfg src dest : string) (force : bool) : MX ConfigFile :=
  let cfg := load_config (get_full_path omw_cfg) in
  let src_dir := get_full_path src in
  let dest_dir := get_full_path dest in
  if negb (is_dir src_dir) then
    xprint (src ++ " is not a directory.") ~;; xexit 1
  else if (negb (is_mod_dir src_dir) && negb force)%bool then
    xprint (src ++ " is not detected as a mod directory, if you wish to install it anyway use the --force flag") ~;;
    xexit 1
  else if path_exists (Py.path_join dest_dir (PyPath.basename src)) then
    xprint ("A file " ++ PyPath.basename src ++ " already exists in " ++ dest_dir
            ++ ". Try renaming the mod or supplying a different destination.") ~;;
    xexit 1
  else
    xprint ("Copying " ++ src_dir ++ " to " ++ dest_dir) ~;;
    xemit (XCopy src_dir dest_dir) ~;;
    let new_dir := copy_to_mod_dir src_dir dest_dir in
    let entry := mkEntry "data" new_dir in
    xprint ("Adding entry " ++ entry_str entry ++ " to openmw.cfg") ~;;
    xemit (XCfgAdd entry) ~;;
    let cfg := add_entry cfg entry in
    xemit (XBase ECfgWrite) ~;;
    xret cfg.

(** ** [list_plugins] (lines 151-188) *)

Definition newline : string := String "010" EmptyString.

Definition enabled_line (plugin : Plugin) : string :=
  "(" ++ PyPath.format_d (plugin_order plugin) ++ ") " ++ plugin_name plugin.

Definition disabled_line (plugin : Plugin) : string := "- " ++ plugin_name plugin.

(** The same lines in the tree view, lines 171 and 176. *)
Definition tree_enabled_line (plugin : Plugin) : string := tab ++ enabled_line plugin.
Definition tree_disabled_line (plugin : Plugin) : string := tab ++ disabled_line plugin.

(** The body of the loop of lines 169-173; [disabled_plugins] is carried
    along. *)
Definition tree_plugin (disabled_plugins : list Plugin) (plugin : Plugin)
  : M (list Plugin) :=
  if plugin_enabled plugin then
    print (tree_enabled_line plugin) ;;; ret disabled_plugins
  else ret (disabled_plugins ++ [plugin])%list.

(** The body of the loop of lines 162-176. *)
Definition tree_mod (mod_ : Mod) : M unit :=
  match mod_plugins mod_ with
  | [] => ret tt
  | plugins =>
      print (mod_name mod_ ++ ":") ;;;
      disabled_plugins <- foldM tree_plugin [] plugins ;;
      match disabled_plugins with
      | [] => ret tt
      | _ :: _ => for_each (fun p => print (tree_disabled_line p)) disabled_plugins
      end
  end.

Definition orphan_warning : string :=
  newline ++ "The following plugins don't belong to any currently installed mod. Use the clean command to remove them.".

Definition list_plugins (omw_cfg : string) (tree : bool) : M unit :=
  let cfg := load_config (get_full_path omw_cfg) in
  (if tree then for_each tree_mod (get_mods cfg)
   else
     for_each (fun p => print (enabled_line p)) (get_enabled_plugins cfg) ;;;
     for_each (fun p => print (disabled_line p)) (get_disabled_plugins cfg)) ;;;
  match get_orphaned_plugins cfg with
  | [] => ret tt
  | orphaned =>
      print orphan_warning ;;;
      for_each print orphaned
  end.

(** The lines of one mod in the tree view, said at once: the name, the
    enabled plugins, then the disabled ones. *)
Definition tree_block (mod_ : Mod) : list string :=
  match mod_plugins mod_ with
  | [] => []
  | plugins =>
      (mod_name mod_ ++ ":")
      :: (map tree_enabled_line (filter plugin_enabled plugins)
          ++ map tree_disabled_line
               (filter (fun p => negb (plugin_enabled p)) plugins))%list
  end.

End MoreCommands.

(** The test double, completed. *)
Module DoubleExt.

Definition directory (path : string) : bool :=
  Py.mem path ["/mods/rats"; "/mods/bats"; "/src/newts"; "/src/newts/"; "/src/notes"].

Definition ext (L : Library) (entry_of : Mod -> ConfigEntry) : LibraryExt L :=
  {| mods_dir := "/mods";
     is_dir := directory;
     is_mod_dir := fun path => String.eqb path "/src/newts";
     copy_to_mod_dir := fun src dest => Py.path_join dest (PyPath.basename src);
     get_enabled_plugins := fun c =>
       filter plugin_enabled (flat_map mod_plugins (get_mods c));
     get_disabled_plugins := fun c =>
       filter (fun p => negb (plugin_enabled p)) (flat_map mod_plugins (get_mods c));
     add_entry := fun c _ => c;
     mod_entry := entry_of;
     entry_str := fun e => entry_key e ++ "=" ++ entry_value e;
     plugin_order := fun p => Z.of_nat (String.length (plugin_name p)) |}.

Definition entry_of (m : Mod) : ConfigEntry := mkEntry "data" (mod_path m).

Definition lib : LibraryExt Double.lib := ext Double.lib entry_of.

(** A disk on which the directory [/mods/] is seen with its trailing
    separator. *)
Definition slash_disk (path : string) : bool :=
  Py.mem path ["/mods"; "/mods/"; "/mods/rats"; "/mods/bats"].

Definition slash_lib : Library :=
  Double.library Double.disk slash_disk "/opt/omw" "Bats.esp" Double.sample_report.

Definition slash_ext : LibraryExt slash_lib := ext slash_lib entry_of.

(** A configuration whose one plugin has a comma in its name, and a
    [never_merge] that tries to name it. *)
Definition odd : Plugin := mkPlugin "Odd,Name.esp" "/mods/odd/Odd,Name.esp" true.

Definition comma_lib : Library :=
  Double.library
    (fun _ => Double.mkConfig [mkEntry "data" "/mods/odd"] [mkMod "odd" "/mods/odd" [odd]])
    Double.on_disk "/opt/omw" "Odd,Name.esp" Double.sample_report.

(** A configuration whose plugins are all disabled or excluded. *)
Definition idle_lib : Library :=
  Double.library
    (fun _ => Double.mkConfig [mkEntry "data" "/mods/bats"]
                [mkMod "bats" "/mods/bats" [Double.bats; Double.cats]])
    Double.on_disk "/opt/omw" "Bats.esp" Double.sample_report.

(** The double with a source directory [/src/rats], whose name is taken
    in [/mods]. *)
Definition taken_ext : LibraryExt Double.lib :=
  {| mods_dir := "/mods";
     is_dir := fun path => Py.mem path ["/mods/rats"; "/mods/bats"; "/src/rats"];
     is_mod_dir := fun path => String.eqb path "/src/rats";
     copy_to_mod_dir := fun src dest => Py.path_join dest (PyPath.basename src);
     get_enabled_plugins := fun c =>
       filter plugin_enabled (flat_map mod_plugins (@get_mods Double.lib c));
     get_disabled_plugins := fun c =>
       filter (fun p => negb (plugin_enabled p))
         (flat_map mod_plugins (@get_mods Double.lib c));
     add_entry := fun c _ => c;
     mod_entry := entry_of;
     entry_str := fun e => entry_key e ++ "=" ++ entry_value e;
     plugin_order := fun p => Z.of_nat (String.length (plugin_name p)) |}.

End DoubleExt.

(** * MergeEngine

    [Esm.merge_with] belongs to [lib.esm], which is not part of the
    script; what it does to the leveled lists follows sections 3 and 4.3
    of the specification.  The diff records and the warnings of that
    section are for the report only and never feed the merge (section 3),
    so the state below leaves them out. *)
Module Engine.
Import Codec.

Definition entry_eqb (a b : Entry) : bool :=
  (String.eqb (ref_id a) (ref_id b) && (level a =? level b)%Z)%bool.

Definition kind_eqb (a b : Kind) : bool :=
  match a, b with
  | Item, Item | Creature, Creature => true
  | _, _ => false
  end.

Definition has_entry (e : Entry) (es : list Entry) : bool :=
  existsb (entry_eqb e) es.

(** Modelled from the spec: the difference [a - b] of two entry sets
    (section 4.3), missing with [lib.esm]. *)
Definition minus (a b : list Entry) : list Entry :=
  filter (fun e => negb (has_entry e b)) a.

(** Modelled from the spec: the union of two entry sets (section 4.3),
    missing with [lib.esm]. *)
Definition union (a b : list Entry) : list Entry := (a ++ minus b a)%list.

(** Modelled from the spec: the MergeAccumulator of section 3, missing
    with [lib.esm]: the merged entries, the baseline captured when the
    identifier was first seen, the kind the identifier was established
    with, the flags of the last plugin that defined it, and whether a
    kind mismatch has pinned it. *)
Record Accumulator := mkAcc {
  acc_entries : list Entry;
  acc_baseline : list Entry;
  acc_kind : Kind;
  acc_chance_none : Z;
  acc_calc_from_all_levels : bool;
  acc_pinned : bool
}.

(** The accumulators by identifier, in the order the identifiers were
    first seen. *)
Definition State : Type := list (string * Accumulator).

(** The leveled-list records of one parsed document, in file order. *)
Definition Document : Type := list LeveledList.

Definition list_id (l : LeveledList) : string := head_id (ll_head l).

Fixpoint lookup (id : string) (st : State) : option Accumulator :=
  match st with
  | [] => None
  | (k, a) :: st' => if String.eqb k id then Some a else lookup id st'
  end.

Fixpoint upsert (id : string) (acc : Accumulator) (st : State) : State :=
  match st with
  | [] => [(id, acc)]
  | (k, a) :: st' =>
      if String.eqb k id then (k, acc) :: st' else (k, a) :: upsert id acc st'
  end.

(** Modelled from the spec: the Accumulator a record seeds, with
    [entries = baseline = record.entries] (section 4.3, step 1), missing
    with [lib.esm]. *)
Definition seed (l : LeveledList) : Accumulator :=
  mkAcc (ll_entries l) (ll_entries l) (head_kind (ll_head l))
        (chance_none (ll_head l)) (calc_from_all_levels (ll_head l)) false.

(** One seeded accumulator per record, in file order. *)
Definition seeds (doc : Document) : State :=
  map (fun l => (list_id l, seed l)) doc.

(** Modelled from the spec: step 2 of section 4.3 for one leveled-list
    record of a plugin, missing with [lib.esm].  An unseen identifier is
    seeded as in step 1.  A pinned identifier, or one whose kind differs
    from the established kind, takes the raw entries of the plugin and
    stays pinned.  Otherwise [added] and [removed] are taken against the
    baseline, the entries become [(entries + added) - removed] and the
    flags those of the plugin.  The baseline is never written again. *)
Definition merge_record (st : State) (l : LeveledList) : State :=
  match lookup (list_id l) st with
  | None => upsert (list_id l) (seed l) st
  | Some acc =>
      if (acc_pinned acc || negb (kind_eqb (head_kind (ll_head l)) (acc_kind acc)))%bool
      then
        upsert (list_id l)
          (mkAcc (ll_entries l) (acc_baseline acc) (acc_kind acc)
                 (chance_none (ll_head l)) (calc_from_all_levels (ll_head l)) true)
          st
      else
        let added := minus (ll_entries l) (acc_baseline acc) in
        let removed := minus (acc_baseline acc) (ll_entries l) in
        upsert (list_id l)
          (mkAcc (minus (union (acc_entries acc) added) removed)
                 (acc_baseline acc) (acc_kind acc)
                 (chance_none (ll_head l)) (calc_from_all_levels (ll_head l)) false)
          st
  end.

(** Modelled from the spec: step 2 for a whole plugin, missing with
    [lib.esm]. *)
Definition merge_document (st : State) (doc : Document) : State :=
  fold_left merge_record doc st.

(** Modelled from the spec: step 1 of section 4.3, every leveled-list
    record of the first document seeds an Accumulator; missing with
    [lib.esm]. *)
Definition seed_document (doc : Document) : State :=
  fold_left (fun st l => upsert (list_id l) (seed l) st) doc [].


(** *** A library whose documents are leveled lists

    The test double with parsed documents in place of file names: a
    document is the records of its file and the accumulators merged into
    it so far. *)
Record Doc := mkDoc {
  doc_lists : Document;
  doc_accumulators : State
}.

Definition library (disk : string -> Double.Config) (files : string -> Document)
  (base never : string) : Library :=
  {| ConfigFile := Double.Config;
     Esm := Doc;
     get_full_path := fun p => p;
     get_base_dir := base;
     get_orphaned_plugins := Double.orphaned;
     find_plugin := fun c name =>
       find (fun p => String.eqb (plugin_name p) name) (Double.all_plugins c);
     load_config := disk;
     get_mods := Double.mods;
     find_key := fun c key =>
       filter (fun e => String.eqb (entry_key e) key) (Double.entries c);
     cfg_remove := fun c e =>
       Double.mkConfig (filter (fun e' => negb (Double.entry_eqb e e')) (Double.entries c))
         (Double.mods c);
     plugin_enable := fun p c =>
       Double.update_plugins (Double.set_enabled (plugin_name p) true) c;
     plugin_disable := fun p c =>
       Double.update_plugins (Double.set_enabled (plugin_name p) false) c;
     never_merge := never;
     parse_records := fun path => mkDoc (files path) (merge_document [] (files path));
     merge_with := fun merged to_merge =>
       (mkDoc (doc_lists merged)
          (merge_document (doc_accumulators merged) (doc_lists to_merge)),
        ([], 0%Z));
     path_exists := Double.on_disk |}.

(** The lists of section 8 of the specification: the baseline, a plugin
    that drops [ratB], a plugin that adds [ratC]. *)
Definition rats_head : Head := mkHead "creature_rats" Creature 0 true.

Definition base_doc : Document := [mkList rats_head [mkRef "ratA" 1; mkRef "ratB" 2]].
Definition p1_doc : Document := [mkList rats_head [mkRef "ratA" 1]].
Definition p2_doc : Document :=
  [mkList rats_head [mkRef "ratA" 1; mkRef "ratB" 2; mkRef "ratC" 3]].

Definition base_plugin : Plugin := mkPlugin "Base.esm" "/data/Base.esm" true.
Definition p1_plugin : Plugin := mkPlugin "P1.esp" "/mods/p1/P1.esp" true.
Definition p2_plugin : Plugin := mkPlugin "P2.esp" "/mods/p2/P2.esp" true.

Definition files (path : string) : Document :=
  if String.eqb path "/data/Base.esm" then base_doc
  else if String.eqb path "/mods/p1/P1.esp" then p1_doc
  else if String.eqb path "/mods/p2/P2.esp" then p2_doc
  else [].

Definition config : Double.Config :=
  Double.mkConfig []
    [mkMod "data" "/data" [base_plugin];
     mkMod "p1" "/mods/p1" [p1_plugin];
     mkMod "p2" "/mods/p2" [p2_plugin]].

Definition lib : Library := library (fun _ => config) files "/opt/omw" "".

End Engine.

(** * Properties *)

(** ** The run monad *)

Lemma bind_ret_l {A B} (a : A) (f : A -> M B) : bind (ret a) f = f a.
Proof. unfold bind, ret. destruct (f a). reflexivity. Qed.

Lemma bind_assoc {A B C} (m : M A) (f : A -> M B) (g : B -> M C) :
  bind (bind m f) g = bind m (fun a => bind (f a) g).
Proof.
  destruct m as [t [a | c]]; simpl; [|reflexivity].
  destruct (f a) as [t' [b | c]]; simpl; [|reflexivity].
  destruct (g b) as [t'' o]. rewrite app_assoc. reflexivity.
Qed.

Lemma bind_ext {A B} (m : M A) (f g : A -> M B) :
  (forall a, f a = g a) -> bind m f = bind m g.
Proof.
  intros E. destruct m as [t [a | c]]; simpl; [rewrite E|]; reflexivity.
Qed.

Lemma bind_returns {A B} (t : list event) (a : A) (f : A -> M B) :
  bind (t, Ret a) f = ((t ++ trace (f a))%list, result (f a)).
Proof. simpl. destruct (f a). reflexivity. Qed.

Lemma foldM_app {S A} (body : S -> A -> M S) (l1 l2 : list A) (s : S) :
  foldM body s (l1 ++ l2)%list = bind (foldM body s l1) (fun s' => foldM body s' l2).
Proof.
  revert s. induction l1 as [|x l1 IH]; intros s; cbn [foldM app].
  - rewrite bind_ret_l. reflexivity.
  - rewrite bind_assoc. apply bind_ext. intros a. apply IH.
Qed.

(** ** Reading a run *)

Lemma merged_plugins_app (t1 t2 : list event) :
  merged_plugins (t1 ++ t2)%list = (merged_plugins t1 ++ merged_plugins t2)%list.
Proof.
  induction t1 as [|e t1 IH]; simpl; [reflexivity|].
  destruct e; simpl; rewrite IH; reflexivity.
Qed.

Lemma merged_plugins_prints (ls : list string) :
  merged_plugins (map EPrint ls) = [].
Proof. induction ls; simpl; auto. Qed.

Lemma merged_plugins_In (p : Plugin) (t : list event) :
  In (EMerge p) t <-> In p (merged_plugins t).
Proof.
  induction t as [|e t IH]; simpl; [tauto|].
  destruct e; simpl; rewrite <- IH; split; intros H;
    try (destruct H as [H | H]; [discriminate H | exact H]);
    try (right; exact H).
  - destruct H as [H | H]; [injection H as ->; auto | auto].
  - destruct H as [-> | H]; auto.
Qed.

Lemma mem_In (x : string) (l : list string) : Py.mem x l = true <-> In x l.
Proof.
  unfold Py.mem. rewrite existsb_exists. split.
  - intros [y [Hy E]]. apply String.eqb_eq in E. subst. exact Hy.
  - intros H. exists x. split; [exact H | apply String.eqb_refl].
Qed.

(** ** The merge loop *)

Section MergeLoop.
Context {L : Library}.

Lemma selected_iff (bl : list string) (p : Plugin) :
  selected bl p = true <-> plugin_enabled p = true /\ ~ In (plugin_name p) bl.
Proof.
  unfold selected. rewrite andb_true_iff, negb_true_iff, <- mem_In.
  destruct (Py.mem (plugin_name p) bl); intuition congruence.
Qed.

Lemma merge_plugin_skipped (bl : list string) (m : Esm) (p : Plugin) :
  selected bl p = false -> merge_plugin bl m p = ret m.
Proof. intros H. unfold merge_plugin. rewrite H. reflexivity. Qed.

Lemma merge_plugin_folded (bl : list string) (m : Esm) (p : Plugin) :
  selected bl p = true ->
  exists t, merge_plugin bl m p = (t, Ret (fold_step m p)) /\ merged_plugins t = [p].
Proof.
  intros H. unfold merge_plugin, fold_step. rewrite H.
  destruct (merge_with m (parse_records (plugin_path p))) as [m' [d n]].
  simpl. destruct (Py.truthy n); simpl.
  - eexists. split; [reflexivity|]. simpl.
    rewrite merged_plugins_app, merged_plugins_prints. reflexivity.
  - eexists. split; reflexivity.
Qed.

(** What one selected plugin prints: its [Merging] line and, when
    [ndiff] is not zero, the report of its diff. *)
Lemma merge_plugin_selected_run (bl : list string) (m m' : Esm) (p : Plugin)
  (d : Diff) (n : Z) :
  selected bl p = true ->
  merge_with m (parse_records (plugin_path p)) = (m', (d, n)) ->
  merge_plugin bl m p
  = ((EPrint ("Merging: " ++ plugin_name p) :: EParse (plugin_path p) :: EMerge p
      :: (if Py.truthy n then map EPrint (report_diff d) else []))%list,
     Ret m').
Proof.
  intros H E. unfold merge_plugin. rewrite H, E. simpl.
  destruct (Py.truthy n); simpl; [rewrite app_nil_r|]; reflexivity.
Qed.

Lemma merge_mod_plugins (bl : list string) (m : Esm) (mod_ : Mod) :
  merge_mod bl m mod_ = foldM (merge_plugin bl) m (mod_plugins mod_).
Proof. unfold merge_mod. destruct (mod_plugins mod_); reflexivity. Qed.

Lemma foldM_mods_plugins (bl : list string) (mods : list Mod) (m : Esm) :
  foldM (merge_mod bl) m mods = foldM (merge_plugin bl) m (flat_map mod_plugins mods).
Proof.
  revert m. induction mods as [|x mods IH]; intros m; cbn [foldM flat_map];
    [reflexivity|].
  rewrite foldM_app, merge_mod_plugins. apply bind_ext. intros a. apply IH.
Qed.

Lemma foldM_only_selected (bl : list string) (l : list Plugin) (m : Esm) :
  foldM (merge_plugin bl) m l = foldM (merge_plugin bl) m (filter (selected bl) l).
Proof.
  revert m. induction l as [|p l IH]; intros m; cbn [foldM filter];
    [reflexivity|].
  destruct (selected bl p) eqn:E; cbn [foldM].
  - apply bind_ext. intros a. apply IH.
  - rewrite (merge_plugin_skipped _ _ _ E), bind_ret_l. apply IH.
Qed.

Lemma foldM_selected_run (bl : list string) (l : list Plugin) (m : Esm) :
  Forall (fun p => selected bl p = true) l ->
  exists t, foldM (merge_plugin bl) m l = (t, Ret (fold_left fold_step l m))
            /\ merged_plugins t = l.
Proof.
  intros F. revert m. induction F as [|p l Hp F IH]; intros m; cbn [foldM fold_left].
  - exists []. split; reflexivity.
  - destruct (merge_plugin_folded bl m p Hp) as [t [E Ht]].
    destruct (IH (fold_step m p)) as [t' [E' Ht']].
    exists (t ++ t')%list. split.
    + rewrite E, bind_returns, E'. reflexivity.
    + rewrite merged_plugins_app, Ht, Ht'. reflexivity.
Qed.

Lemma filter_selected_all (bl : list string) (l : list Plugin) :
  Forall (fun p => selected bl p = true) (filter (selected bl) l).
Proof. apply Forall_forall. intros p H. apply filter_In in H. apply H. Qed.

(** The loop over the mods folds the selected plugins, in listing order,
    and nothing else. *)
Lemma merge_loop_run (bl : list string) (mods : list Mod) (m : Esm) :
  exists t,
    foldM (merge_mod bl) m mods
    = (t, Ret (fold_left fold_step (filter (selected bl) (flat_map mod_plugins mods)) m))
    /\ merged_plugins t = filter (selected bl) (flat_map mod_plugins mods).
Proof.
  rewrite foldM_mods_plugins, foldM_only_selected.
  apply foldM_selected_run, filter_selected_all.
Qed.

(** A configuration with mods: [merge_lists] parses [empty.esp], runs the
    loop from it and writes. *)
Lemma merge_lists_run (omw_cfg : string) (out : option string) :
  get_mods (load_config omw_cfg) <> [] ->
  exists t dest,
    merge_lists omw_cfg out
    = ((EParse empty_esp :: t ++ [EEsmWrite dest])%list,
       Ret (fold_left fold_step (merge_sequence omw_cfg) (parse_records empty_esp)))
    /\ merged_plugins t = merge_sequence omw_cfg
    /\ dest = match out with
              | None | Some EmptyString => default_out
              | Some o => o
              end.
Proof.
  intros Hmods. unfold merge_lists, merge_sequence, listed_plugins.
  destruct (get_mods (load_config omw_cfg)) as [|x mods] eqn:E; [congruence|].
  destruct (merge_loop_run blacklist (x :: mods) (parse_records empty_esp))
    as [t [Ht Hm]].
  exists t. eexists. split; [|split; [exact Hm | reflexivity]].
  unfold emit. rewrite bind_returns. rewrite Ht. reflexivity.
Qed.

Lemma merge_lists_no_mods_run (omw_cfg : string) (out : option string) :
  get_mods (load_config omw_cfg) = [] ->
  merge_lists omw_cfg out = ([EPrint "Nothing to merge!"], Exit 1%Z).
Proof. intros E. unfold merge_lists. rewrite E. reflexivity. Qed.

End MergeLoop.

(** ** The merge engine and the baseline *)

Module EngineFacts.
Import Codec Engine.



Lemma upsert_absent (id : string) (acc : Accumulator) (st : State) :
  lookup id st = None -> upsert id acc st = (st ++ [(id, acc)])%list.
Proof.
  induction st as [|[k a] st IH]; simpl; intros H; [reflexivity|].
  destruct (String.eqb k id); [discriminate|]. now rewrite IH.
Qed.

Lemma lookup_app_absent (id : string) (st st' : State) :
  lookup id st = None -> lookup id (st ++ st')%list = lookup id st'.
Proof.
  induction st as [|[k a] st IH]; simpl; intros H; [reflexivity|].
  destruct (String.eqb k id); [discriminate | now apply IH].
Qed.

(** A record whose identifier is unseen seeds its accumulator at the end
    of the state. *)
Lemma merge_record_unseen (st : State) (l : LeveledList) :
  lookup (list_id l) st = None ->
  merge_record st l = (st ++ [(list_id l, seed l)])%list.
Proof. intros H. unfold merge_record. rewrite H. now apply upsert_absent. Qed.

(** A document none of whose identifiers is in the state, and that
    defines each of its identifiers once, seeds one accumulator per
    record. *)
Lemma merge_document_unseen (doc : Document) (st : State) :
  NoDup (map list_id doc) ->
  (forall l, In l doc -> lookup (list_id l) st = None) ->
  merge_document st doc = (st ++ seeds doc)%list.
Proof.
  unfold merge_document. revert st.
  induction doc as [|a doc IH]; intros st N F; simpl.
  - now rewrite app_nil_r.
  - inversion N as [|? ? Na N']; subst.
    rewrite merge_record_unseen by (apply F; now left).
    rewrite IH; [now rewrite <- app_assoc | exact N' |].
    intros l Hl. rewrite lookup_app_absent by (apply F; now right).
    simpl. destruct (String.eqb (list_id a) (list_id l)) eqn:E; [|reflexivity].
    apply String.eqb_eq in E. exfalso. apply Na. rewrite E.
    now apply in_map.
Qed.

Lemma seed_document_seeds (doc : Document) :
  NoDup (map list_id doc) -> seed_document doc = seeds doc.
Proof.
  unfold seed_document.
  enough (G : forall st, NoDup (map list_id doc) ->
                         (forall l, In l doc -> lookup (list_id l) st = None) ->
                         fold_left (fun st l => upsert (list_id l) (seed l) st) doc st
                         = (st ++ seeds doc)%list).
  { intros N. now rewrite (G [] N). }
  induction doc as [|a doc IH]; intros st N F; simpl.
  - now rewrite app_nil_r.
  - inversion N as [|? ? Na N']; subst.
    rewrite upsert_absent by (apply F; now left).
    rewrite IH; [now rewrite <- app_assoc | exact N' |].
    intros l Hl. rewrite lookup_app_absent by (apply F; now right).
    simpl. destruct (String.eqb (list_id a) (list_id l)) eqn:E; [|reflexivity].
    apply String.eqb_eq in E. exfalso. apply Na. rewrite E.
    now apply in_map.
Qed.

(** Folding a document into the empty state is step 1 on it. *)
Lemma merge_document_empty_state (doc : Document) :
  NoDup (map list_id doc) -> merge_document [] doc = seed_document doc.
Proof.
  intros N. rewrite seed_document_seeds by exact N.
  now rewrite merge_document_unseen.
Qed.





End EngineFacts.

Section Baseline.
Context {L : Library}.
Variable accumulators : Esm -> Engine.State.
Variable lists : Esm -> Engine.Document.

(** [merge_with] leaves in [merged] what step 2 of section 4.3 makes of
    the accumulators of [merged] and the leveled lists of [to_merge]. *)
Hypothesis merge_with_engine : forall merged to_merge,
  accumulators (fst (merge_with merged to_merge))
  = Engine.merge_document (accumulators merged) (lists to_merge).


End Baseline.



(** ** Lists *)





(** ** [merge_lists] *)

Section MergeLists.
Context {L : Library}.

Lemma trace_bind {A B} (m : M A) (f : A -> M B) :
  trace (bind m f)
  = (trace m ++ match result m with
                | Ret a => trace (f a)
                | Exit _ => []
                end)%list.
Proof.
  destruct m as [t [a | c]]; simpl.
  - destruct (f a). reflexivity.
  - rewrite app_nil_r. reflexivity.
Qed.

Lemma writes_app (t1 t2 : list event) :
  writes (t1 ++ t2)%list = (writes t1 ++ writes t2)%list.
Proof. apply filter_app. Qed.

Lemma writes_prints (ls : list string) : writes (map EPrint ls) = [].
Proof. induction ls; simpl; auto. Qed.

Lemma merge_plugin_no_write (bl : list string) (m : Esm) (p : Plugin) :
  writes (trace (merge_plugin bl m p)) = [].
Proof.
  unfold merge_plugin. destruct (selected bl p); [|reflexivity].
  destruct (merge_with m (parse_records (plugin_path p))) as [m' [d n]].
  simpl. destruct (Py.truthy n); simpl; [|reflexivity].
  unfold writes. simpl. rewrite app_nil_r. apply writes_prints.
Qed.

Lemma foldM_no_write {S A} (body : S -> A -> M S) (l : list A) (s : S) :
  (forall s a, writes (trace (body s a)) = []) ->
  writes (trace (foldM body s l)) = [].
Proof.
  intros H. revert s. induction l as [|x l IH]; intros s; cbn [foldM];
    [reflexivity|].
  rewrite trace_bind, writes_app, H. destruct (result (body s x)); simpl; auto.
Qed.

(** The only file [merge_lists] writes is its destination. *)
Lemma merge_lists_writes (omw_cfg : string) (out : option string) :
  get_mods (load_config omw_cfg) <> [] ->
  writes (trace (merge_lists omw_cfg out))
  = [EEsmWrite match out with
               | None | Some EmptyString => default_out
               | Some o => o
               end].
Proof.
  intros Hmods. unfold merge_lists.
  destruct (get_mods (load_config omw_cfg)) as [|x mods] eqn:E; [congruence|].
  rewrite trace_bind. cbn [emit trace result fst snd].
  rewrite trace_bind, writes_app, writes_app.
  rewrite foldM_no_write.
  2:{ intros s a. rewrite merge_mod_plugins. apply foldM_no_write.
      intros s' a'. apply merge_plugin_no_write. }
  destruct (merge_loop_run blacklist (x :: mods) (parse_records empty_esp))
    as [t [Ht _]].
  rewrite Ht. reflexivity.
Qed.

(** The calls of [merge_with] of a whole run. *)
Lemma merge_lists_merged_plugins (omw_cfg : string) (out : option string) :
  merged_plugins (trace (merge_lists omw_cfg out)) = merge_sequence omw_cfg.
Proof.
  destruct (get_mods (load_config omw_cfg)) as [|x mods] eqn:Hm.
  - rewrite merge_lists_no_mods_run by exact Hm.
    unfold merge_sequence, listed_plugins. rewrite Hm. reflexivity.
  - assert (Hne : get_mods (load_config omw_cfg) <> []) by congruence.
    destruct (merge_lists_run omw_cfg out Hne) as [t [dest [E [Ht _]]]].
    rewrite E. cbn [trace fst].
    change (EParse empty_esp :: t ++ [EEsmWrite dest])%list
      with ([EParse empty_esp] ++ t ++ [EEsmWrite dest])%list.
    rewrite !merged_plugins_app, Ht. simpl. apply app_nil_r.
Qed.

(** C2.  A plugin of the configuration is folded in exactly when it is
    enabled and its name is not in the exclusion list.  [merge_with] is
    called on it in that case and in no other; the loop body then goes on
    with the document [merge_with] left, and for every other plugin it
    makes no call and goes on with the document it had.  So the document
    [merge_lists] ends with is [empty.esp] with the enabled, not excluded
    plugins folded in, in listing order: a disabled or excluded plugin
    adds nothing to it. *)
Theorem merge_lists_folds_iff_selected (omw_cfg : string) (out : option string)
  (p : Plugin) :
  (In (EMerge p) (trace (merge_lists omw_cfg out))
   <-> In p (listed_plugins omw_cfg)
       /\ plugin_enabled p = true
       /\ ~ In (plugin_name p) blacklist)
  /\ (forall merged,
        if (plugin_enabled p && negb (Py.mem (plugin_name p) blacklist))%bool
        then In (EMerge p) (trace (merge_plugin blacklist merged p))
             /\ result (merge_plugin blacklist merged p)
                = Ret (fst (merge_with merged (parse_records (plugin_path p))))
        else merge_plugin blacklist merged p = ([], Ret merged))
  /\ result (merge_lists omw_cfg out)
     = match get_mods (load_config omw_cfg) with
       | [] => Exit 1%Z
       | _ :: _ =>
           Ret (fold_left
                  (fun merged q =>
                     fst (merge_with merged (parse_records (plugin_path q))))
                  (filter
                     (fun q => (plugin_enabled q
                                && negb (Py.mem (plugin_name q) blacklist))%bool)
                     (listed_plugins omw_cfg))
                  (parse_records empty_esp))
       end
  /\ (forall merged,
        foldM (merge_mod blacklist) merged (get_mods (load_config omw_cfg))
        = foldM (merge_plugin blacklist) merged (merge_sequence omw_cfg)).
Proof.
  assert (S : forall q, selected blacklist q
                        = (plugin_enabled q
                           && negb (Py.mem (plugin_name q) blacklist))%bool).
  { intros q. unfold selected. apply andb_comm. }
  split; [|split; [|split]].
  - rewrite merged_plugins_In, merge_lists_merged_plugins.
    unfold merge_sequence. rewrite filter_In, selected_iff. tauto.
  - intros merged. rewrite <- S. destruct (selected blacklist p) eqn:E.
    + destruct (merge_plugin_folded blacklist merged p E) as [t [R M]].
      rewrite R. cbn [trace result fst snd]. split; [|reflexivity].
      apply merged_plugins_In. rewrite M. left. reflexivity.
    + apply merge_plugin_skipped. exact E.
  - destruct (get_mods (load_config omw_cfg)) as [|x mods] eqn:Hm.
    + rewrite merge_lists_no_mods_run by exact Hm. reflexivity.
    + assert (Hne : get_mods (load_config omw_cfg) <> []) by congruence.
      destruct (merge_lists_run omw_cfg out Hne) as [t [dest [E _]]].
      rewrite E. cbn [result snd]. unfold merge_sequence.
      rewrite (filter_ext _ _ S). reflexivity.
  - intros merged. unfold merge_sequence, listed_plugins.
    rewrite foldM_mods_plugins. apply foldM_only_selected.
Qed.


(** C5.  Without an output path [merge_lists] writes one file,
    [./Merged_Lists.esp], which is not the [./merged.esp] its docstring
    and the help of [--output] announce. *)
Theorem merge_lists_default_destination (omw_cfg : string) :
  get_mods (load_config omw_cfg) <> [] ->
  writes (trace (merge_lists omw_cfg None)) = [EEsmWrite "./Merged_Lists.esp"]
  /\ ~ In (EEsmWrite documented_default_out) (trace (merge_lists omw_cfg None)).
Proof.
  intros Hmods. pose proof (merge_lists_writes omw_cfg None Hmods) as W.
  split; [exact W|]. intros H.
  assert (Hw : In (EEsmWrite documented_default_out)
                  (writes (trace (merge_lists omw_cfg None)))).
  { apply filter_In. split; [exact H | reflexivity]. }
  rewrite W in Hw. destruct Hw as [Hw | []]. discriminate Hw.
Qed.

(** C8.  With no mods in the configuration [merge_lists] prints
    [Nothing to merge!] and exits with status 1; nothing was parsed and no
    file was written. *)
Theorem merge_lists_nothing_to_merge (omw_cfg : string) (out : option string) :
  get_mods (load_config omw_cfg) = [] ->
  merge_lists omw_cfg out = ([EPrint "Nothing to merge!"], Exit 1%Z)
  /\ parsed_paths (trace (merge_lists omw_cfg out)) = []
  /\ merged_plugins (trace (merge_lists omw_cfg out)) = []
  /\ writes (trace (merge_lists omw_cfg out)) = [].
Proof.
  intros Hmods. rewrite (merge_lists_no_mods_run omw_cfg out Hmods).
  repeat split.
Qed.

End MergeLists.


Lemma merge_lists_default_destination_witness :
  writes (trace (@merge_lists Double.lib "one.cfg" None))
  = [EEsmWrite "./Merged_Lists.esp"]
  /\ ~ In (EEsmWrite "./merged.esp") (trace (@merge_lists Double.lib "one.cfg" None)).
Proof.
  apply (@merge_lists_default_destination Double.lib "one.cfg").
  vm_compute. discriminate.
Defined.

Lemma merge_lists_nothing_to_merge_witness :
  @merge_lists Double.lib "none.cfg" (Some "out.esp")
  = ([EPrint "Nothing to merge!"], Exit 1%Z)
  /\ parsed_paths (trace (@merge_lists Double.lib "none.cfg" (Some "out.esp"))) = []
  /\ merged_plugins (trace (@merge_lists Double.lib "none.cfg" (Some "out.esp"))) = []
  /\ writes (trace (@merge_lists Double.lib "none.cfg" (Some "out.esp"))) = [].
Proof.
  apply (@merge_lists_nothing_to_merge Double.lib "none.cfg" (Some "out.esp")).
  reflexivity.
Defined.

(** ** The diff report *)



Lemma report_statuses_drop_empty (label : string) (pre post : list Category)
  (status : string) (printed : bool) :
  report_statuses label printed (pre ++ (status, []) :: post)%list
  = report_statuses label printed (pre ++ post)%list.
Proof.
  revert printed. induction pre as [|[s names] pre IH]; intros printed; simpl.
  - reflexivity.
  - destruct names; [apply IH | rewrite IH; reflexivity].
Qed.

Lemma report_statuses_filter (label : string) (sts : list Category) (printed : bool) :
  report_statuses label printed sts
  = report_statuses label printed (filter nonempty_category sts).
Proof.
  revert printed. induction sts as [|[s names] sts IH]; intros printed; simpl.
  - reflexivity.
  - destruct names; simpl; [apply IH | rewrite IH; reflexivity].
Qed.

Lemma report_statuses_all_empty (label : string) (statuses : list string)
  (printed : bool) :
  report_statuses label printed (map (fun status => (status, [])) statuses) = [].
Proof. induction statuses; simpl; auto. Qed.

(** C6.  Empty categories are left out of the report: a (record type,
    status) pair without names can be taken out of the diff and the
    report stays the same, so it adds no heading and no line; the report
    is that of the diff with every empty category dropped; and a record
    type whose categories are all empty prints nothing, not even its
    label. *)
Theorem report_omits_empty_categories (diff before after : Diff)
  (rec status : string) (pre post : list Category) (statuses : list string) :
  report_diff (before ++ (rec, pre ++ (status, []) :: post) :: after)%list
  = report_diff (before ++ (rec, pre ++ post) :: after)%list
  /\ report_diff diff = report_diff (prune diff)
  /\ report_record (rec, map (fun s => (s, [])) statuses) = []
  /\ report_diff (before ++ (rec, map (fun s => (s, [])) statuses) :: after)%list
     = report_diff (before ++ after)%list.
Proof.
  unfold report_diff. repeat split.
  - rewrite !flat_map_app. simpl. unfold report_record at 2 4. simpl.
    rewrite report_statuses_drop_empty. reflexivity.
  - unfold prune.
    induction diff as [|[r sts] d IH]; simpl; [reflexivity|].
    rewrite <- IH. unfold report_record at 1 3. simpl.
    rewrite report_statuses_filter at 1. reflexivity.
  - apply report_statuses_all_empty.
  - rewrite !flat_map_app. simpl. unfold report_record at 2. simpl.
    rewrite report_statuses_all_empty. reflexivity.
Qed.




(** ** [enable_plugin], [disable_plugin], [clean_mods] *)

Section Config.
Context {L : Library}.

(** C9.  A redundant request is not treated alike by the two commands:
    [enable_plugin] on a plugin that is enabled prints a message and exits
    with status 1, the configuration is not written; [disable_plugin] on a
    plugin that is disabled prints a message and goes on, it calls
    [plugin.disable()] and writes the configuration. *)
Theorem enable_disable_asymmetry (omw_cfg on off : string) (p q : Plugin) :
  find_plugin (load_config (get_full_path omw_cfg)) on = Some p ->
  plugin_enabled p = true ->
  find_plugin (load_config (get_full_path omw_cfg)) off = Some q ->
  plugin_enabled q = false ->
  (enable_plugin omw_cfg on
   = ([EPrint ("Plugin " ++ on ++ " is already enabled.")], Exit 1%Z)
   /\ writes (trace (enable_plugin omw_cfg on)) = [])
  /\ (disable_plugin omw_cfg off
      = ([EPrint ("Plugin " ++ off ++ " is already enabled.");
          EPrint ("Disabling " ++ off); EDisable q; ECfgWrite],
         Ret (plugin_disable q (load_config (get_full_path omw_cfg))))
      /\ writes (trace (disable_plugin omw_cfg off)) = [ECfgWrite]).
Proof.
  intros Fp Ep Fq Eq.
  assert (E1 : enable_plugin omw_cfg on
               = ([EPrint ("Plugin " ++ on ++ " is already enabled.")], Exit 1%Z)).
  { unfold enable_plugin. rewrite Fp, Ep. reflexivity. }
  assert (E2 : disable_plugin omw_cfg off
               = ([EPrint ("Plugin " ++ off ++ " is already enabled.");
                   EPrint ("Disabling " ++ off); EDisable q; ECfgWrite],
                  Ret (plugin_disable q (load_config (get_full_path omw_cfg))))).
  { unfold disable_plugin. rewrite Fq, Eq. reflexivity. }
  rewrite E1, E2. repeat split.
Qed.

Lemma clean_entries_all_exist (es : list ConfigEntry)
  (st : list ConfigEntry * ConfigFile) :
  Forall (fun e => path_exists (entry_value e) = true) es ->
  foldM clean_entry st es = ret st.
Proof.
  intros F. induction F as [|e es He F IH]; cbn [foldM]; [reflexivity|].
  assert (E : clean_entry st e = ret st).
  { unfold clean_entry. destruct st as [bad cfg]. rewrite He. reflexivity. }
  rewrite E, bind_ret_l. exact IH.
Qed.

(** C10.  When every [data] entry points to a path that exists and no
    [content] entry is orphaned, [clean_mods] prints its two messages and
    returns: nothing is removed and [write] is not called, so the file is
    left as it was. *)
Theorem clean_mods_writes_nothing (omw_cfg : string) :
  Forall (fun e => path_exists (entry_value e) = true)
         (find_key (load_config (get_full_path omw_cfg)) "data") ->
  get_orphaned_plugins (load_config (get_full_path omw_cfg)) = [] ->
  clean_mods omw_cfg
  = ([EPrint "No invalid data entries found!";
      EPrint "No invalid content entries found!"],
     Ret (load_config (get_full_path omw_cfg)))
  /\ writes (trace (clean_mods omw_cfg)) = []
  /\ ~ In ECfgWrite (trace (clean_mods omw_cfg)).
Proof.
  intros Hdata Horph.
  assert (E : clean_mods omw_cfg
              = ([EPrint "No invalid data entries found!";
                  EPrint "No invalid content entries found!"],
                 Ret (load_config (get_full_path omw_cfg)))).
  { unfold clean_mods. rewrite (clean_entries_all_exist _ _ Hdata), bind_ret_l.
    rewrite Horph. reflexivity. }
  rewrite E. repeat split. simpl. intros [H | [H | []]]; discriminate H.
Qed.

End Config.

Lemma enable_disable_asymmetry_witness :
  (@enable_plugin Double.lib "two.cfg" "Rats.esp"
   = ([EPrint "Plugin Rats.esp is already enabled."], Exit 1%Z)
   /\ writes (trace (@enable_plugin Double.lib "two.cfg" "Rats.esp")) = [])
  /\ (@disable_plugin Double.lib "two.cfg" "Cats.esp"
      = ([EPrint "Plugin Cats.esp is already enabled.";
          EPrint "Disabling Cats.esp"; EDisable Double.cats; ECfgWrite],
         Ret (@plugin_disable Double.lib Double.cats Double.two_mods))
      /\ writes (trace (@disable_plugin Double.lib "two.cfg" "Cats.esp")) = [ECfgWrite]).
Proof.
  apply (@enable_disable_asymmetry Double.lib "two.cfg" "Rats.esp" "Cats.esp"
           Double.rats Double.cats); reflexivity.
Defined.

Lemma clean_mods_writes_nothing_witness :
  @clean_mods Double.lib "two.cfg"
  = ([EPrint "No invalid data entries found!";
      EPrint "No invalid content entries found!"],
     Ret Double.two_mods)
  /\ writes (trace (@clean_mods Double.lib "two.cfg")) = []
  /\ ~ In ECfgWrite (trace (@clean_mods Double.lib "two.cfg")).
Proof.
  apply (@clean_mods_writes_nothing Double.lib "two.cfg").
  - repeat constructor.
  - reflexivity.
Defined.

(** ** Sorting *)

Section SortedFacts.
Context {A : Type} (leb : A -> A -> bool).
Hypothesis leb_total : forall a b, leb a b = true \/ leb b a = true.
Hypothesis leb_trans : forall a b c, leb a b = true -> leb b c = true -> leb a c = true.
Hypothesis leb_antisym : forall a b, leb a b = true -> leb b a = true -> a = b.

Lemma insert_perm (x : A) (l : list A) : Permutation (x :: l) (Py.insert leb x l).
Proof.
  induction l as [|y l IH]; simpl; [apply Permutation_refl|].
  destruct (leb x y); [apply Permutation_refl|].
  eapply perm_trans; [apply perm_swap | apply perm_skip, IH].
Qed.

Lemma sorted_perm (l : list A) : Permutation l (Py.sorted leb l).
Proof.
  induction l as [|x l IH]; simpl; [constructor|].
  eapply perm_trans; [apply perm_skip, IH | apply insert_perm].
Qed.

Lemma insert_sorted (x : A) (l : list A) :
  StronglySorted (fun a b => leb a b = true) l ->
  StronglySorted (fun a b => leb a b = true) (Py.insert leb x l).
Proof.
  intros S. induction S as [|y l S IH F]; simpl.
  - repeat constructor.
  - destruct (leb x y) eqn:E.
    + constructor; [constructor; assumption|].
      constructor; [exact E|].
      eapply Forall_impl; [|exact F]. intros z Hz. eapply leb_trans; eassumption.
    + constructor; [exact IH|].
      eapply Permutation_Forall; [apply insert_perm|].
      constructor; [|exact F].
      destruct (leb_total x y) as [H | H]; [congruence | exact H].
Qed.

Lemma sorted_sorted (l : list A) :
  StronglySorted (fun a b => leb a b = true) (Py.sorted leb l).
Proof.
  induction l as [|x l IH]; simpl; [constructor | apply insert_sorted, IH].
Qed.

Lemma sorted_unique (l1 l2 : list A) :
  StronglySorted (fun a b => leb a b = true) l1 ->
  StronglySorted (fun a b => leb a b = true) l2 ->
  Permutation l1 l2 -> l1 = l2.
Proof.
  intros S1. revert l2. induction S1 as [|x l1 S1 IH F1]; intros l2 S2 P.
  - apply Permutation_nil in P. congruence.
  - destruct S2 as [|y l2 S2 F2].
    + apply Permutation_sym, Permutation_nil in P. discriminate.
    + assert (E : x = y).
      { assert (Hx : In x (y :: l2)).
        { eapply Permutation_in; [exact P | left; reflexivity]. }
        assert (Hy : In y (x :: l1)).
        { eapply Permutation_in; [apply Permutation_sym, P | left; reflexivity]. }
        destruct Hx as [-> | Hx]; [reflexivity|].
        destruct Hy as [-> | Hy]; [reflexivity|].
        rewrite Forall_forall in F1, F2.
        apply leb_antisym; [apply F1, Hy | apply F2, Hx]. }
      subst y. f_equal. apply IH; [exact S2|].
      eapply Permutation_cons_inv. exact P.
Qed.

Lemma sorted_of_perm (l1 l2 : list A) :
  Permutation l1 l2 -> Py.sorted leb l1 = Py.sorted leb l2.
Proof.
  intros P. apply sorted_unique; try apply sorted_sorted.
  eapply perm_trans; [apply Permutation_sym, sorted_perm|].
  eapply perm_trans; [exact P | apply sorted_perm].
Qed.

Lemma sorted_idempotent (l : list A) :
  Py.sorted leb (Py.sorted leb l) = Py.sorted leb l.
Proof. apply sorted_of_perm, Permutation_sym, sorted_perm. Qed.

End SortedFacts.

(** ** The canonical order of entries *)

Lemma ascii_compare_lt_trans (a b c : ascii) :
  Ascii.compare a b = Lt -> Ascii.compare b c = Lt -> Ascii.compare a c = Lt.
Proof.
  unfold Ascii.compare. rewrite !N.compare_lt_iff. apply N.lt_trans.
Qed.

Lemma ascii_compare_refl (a : ascii) : Ascii.compare a a = Eq.
Proof. unfold Ascii.compare. apply N.compare_refl. Qed.

Lemma string_compare_refl (s : string) : String.compare s s = Eq.
Proof.
  induction s as [|a s IH]; simpl; [reflexivity|].
  rewrite ascii_compare_refl. exact IH.
Qed.

Lemma string_compare_lt_trans (s1 s2 s3 : string) :
  String.compare s1 s2 = Lt -> String.compare s2 s3 = Lt -> String.compare s1 s3 = Lt.
Proof.
  revert s2 s3. induction s1 as [|a s1 IH]; intros [|b s2] [|c s3]; simpl;
    try congruence.
  destruct (Ascii.compare a b) eqn:Eab; try discriminate;
    destruct (Ascii.compare b c) eqn:Ebc; try discriminate; intros H1 H2.
  - apply Ascii.compare_eq_iff in Eab, Ebc. subst.
    rewrite ascii_compare_refl. eapply IH; eassumption.
  - apply Ascii.compare_eq_iff in Eab. subst. rewrite Ebc. reflexivity.
  - apply Ascii.compare_eq_iff in Ebc. subst. rewrite Eab. reflexivity.
  - rewrite (ascii_compare_lt_trans _ _ _ Eab Ebc). reflexivity.
Qed.

Module EntryOrder.
Import Codec.

Lemma total (a b : Entry) : entry_leb a b = true \/ entry_leb b a = true.
Proof.
  unfold entry_leb. rewrite (String.compare_antisym (ref_id b) (ref_id a)).
  destruct (String.compare (ref_id a) (ref_id b)); simpl; auto.
  rewrite !Z.leb_le. lia.
Qed.

Lemma antisym (a b : Entry) :
  entry_leb a b = true -> entry_leb b a = true -> a = b.
Proof.
  unfold entry_leb. rewrite (String.compare_antisym (ref_id b) (ref_id a)).
  destruct (String.compare (ref_id a) (ref_id b)) eqn:E; simpl; try discriminate.
  apply String.compare_eq_iff in E. rewrite !Z.leb_le. intros H1 H2.
  destruct a as [ia la], b as [ib lb]. simpl in *. f_equal; [exact E | lia].
Qed.

Lemma trans (a b c : Entry) :
  entry_leb a b = true -> entry_leb b c = true -> entry_leb a c = true.
Proof.
  unfold entry_leb.
  destruct (String.compare (ref_id a) (ref_id b)) eqn:Eab; try discriminate;
    destruct (String.compare (ref_id b) (ref_id c)) eqn:Ebc; try discriminate.
  - apply String.compare_eq_iff in Eab, Ebc. rewrite Eab, Ebc, string_compare_refl.
    rewrite !Z.leb_le. lia.
  - apply String.compare_eq_iff in Eab. rewrite Eab, Ebc. reflexivity.
  - apply String.compare_eq_iff in Ebc. rewrite <- Ebc, Eab. reflexivity.
  - rewrite (string_compare_lt_trans _ _ _ Eab Ebc). reflexivity.
Qed.

Lemma canonical_perm (es : list Entry) : Permutation es (canonical es).
Proof. apply sorted_perm. Qed.

Lemma canonical_sorted (es : list Entry) : StronglySorted entry_le (canonical es).
Proof. apply sorted_sorted; [apply total | apply trans]. Qed.

Lemma canonical_idempotent (es : list Entry) :
  canonical (canonical es) = canonical es.
Proof.
  apply sorted_idempotent; [apply total | apply trans | apply antisym].
Qed.

Lemma canonical_of_same_entries (a b : list Entry) :
  NoDup a -> NoDup b -> same_entries a b -> canonical a = canonical b.
Proof.
  intros Na Nb S. apply sorted_of_perm.
  - apply total.
  - apply trans.
  - apply antisym.
  - apply NoDup_Permutation; assumption.
Qed.

End EntryOrder.

(** ** The codec *)

Module CodecFacts.
Import Codec.

Section WithLayout.
Variable ly : Layout.
Hypothesis ly_lawful : lawful_layout ly.

Lemma get_entries_put (es : list Entry) (rest : bytes) :
  Forall (fun e => fits (entry_field ly) e = true /\ level_ok e = true) es ->
  get_entries ly (length es) (flat_map (put (entry_field ly)) es ++ rest)%list
  = Some (es, rest).
Proof.
  destruct ly_lawful as [_ [_ Le]].
  intros F. induction F as [|e es [Hf Hl] F IH]; simpl; [reflexivity|].
  rewrite <- app_assoc, (Le e _ Hf), Hl, IH. reflexivity.
Qed.

Lemma decode_encode (l : LeveledList) :
  well_formed ly l ->
  decode ly (encode ly l) = Decoded (mkList (ll_head l) (canonical (ll_entries l))).
Proof.
  destruct ly_lawful as [Lh [Lc _]].
  intros [Hh [Hc [He _]]]. unfold decode, encode.
  pose proof (EntryOrder.canonical_perm (ll_entries l)) as P.
  rewrite (Lh _ _ Hh).
  rewrite (Lc (length (canonical (ll_entries l)))).
  2:{ rewrite <- (Permutation_length P). exact Hc. }
  rewrite <- (app_nil_r (flat_map _ _)).
  rewrite get_entries_put; [reflexivity|].
  eapply Permutation_Forall; [exact P | exact He].
Qed.

Lemma canonical_well_formed (l : LeveledList) :
  well_formed ly l -> well_formed ly (mkList (ll_head l) (canonical (ll_entries l))).
Proof.
  intros [Hh [Hc [He Hn]]].
  pose proof (EntryOrder.canonical_perm (ll_entries l)) as P.
  unfold well_formed. simpl. repeat split.
  - exact Hh.
  - rewrite <- (Permutation_length P). exact Hc.
  - eapply Permutation_Forall; [exact P | exact He].
  - eapply Permutation_NoDup; [exact P | exact Hn].
Qed.

End WithLayout.

(** C4.  For a layout whose fields can be read back and a leveled list
    that keeps the invariant of the data model: decoding the encoded list
    succeeds and gives the same identifier, kind and flags and the same
    set of entries, whatever the order of the entries in the input; the
    entries come out in the canonical order, by reference identifier and
    then by level; encoding what was decoded gives the same bytes again;
    and two lists with the same head and the same set of entries are
    encoded to the same bytes. *)
Theorem encode_decode_canonical (ly : Layout) (l l2 : LeveledList) :
  lawful_layout ly ->
  well_formed ly l ->
  well_formed ly l2 ->
  ll_head l = ll_head l2 ->
  same_entries (ll_entries l) (ll_entries l2) ->
  (exists l',
      decode ly (encode ly l) = Decoded l'
      /\ ll_head l' = ll_head l
      /\ same_entries (ll_entries l') (ll_entries l)
      /\ StronglySorted entry_le (ll_entries l')
      /\ encode ly l' = encode ly l
      /\ decode ly (encode ly l') = Decoded l')
  /\ encode ly l = encode ly l2.
Proof.
  intros Lw W W2 Hh Hs. split.
  - exists (mkList (ll_head l) (canonical (ll_entries l))).
    split; [apply decode_encode; assumption|]. simpl. repeat split.
    + intros H. eapply Permutation_in; [|exact H].
      apply Permutation_sym, EntryOrder.canonical_perm.
    + intros H. eapply Permutation_in; [|exact H]. apply EntryOrder.canonical_perm.
    + apply EntryOrder.canonical_sorted.
    + unfold encode. simpl. rewrite EntryOrder.canonical_idempotent. reflexivity.
    + rewrite decode_encode; [|exact Lw | apply canonical_well_formed, W].
      simpl. rewrite EntryOrder.canonical_idempotent. reflexivity.
  - unfold encode. rewrite Hh.
    rewrite (EntryOrder.canonical_of_same_entries (ll_entries l) (ll_entries l2));
      [reflexivity | apply W | apply W2 | exact Hs].
Qed.

(** *** The little-endian layout can be read back *)

Lemma byte_of_N_value (n : N) : Byte.to_N (byte_of_N n) = (n mod 256)%N.
Proof.
  unfold byte_of_N. destruct (Byte.of_N (n mod 256)) as [b|] eqn:E.
  - apply Byte.to_of_N. exact E.
  - apply Byte.of_N_None_iff in E.
    pose proof (N.mod_upper_bound n 256). lia.
Qed.

Lemma get_le_put_le (w : nat) (n : N) (rest : bytes) :
  (n < 256 ^ N.of_nat w)%N -> get_le w (put_le w n ++ rest)%list = Some (n, rest).
Proof.
  revert n. induction w as [|w IH]; intros n H.
  - simpl in *. f_equal. f_equal. lia.
  - rewrite Nat2N.inj_succ, N.pow_succ_r' in H.
    cbn [put_le get_le app]. rewrite IH.
    + rewrite byte_of_N_value. f_equal. f_equal.
      pose proof (N.div_mod n 256). lia.
    + apply N.Div0.div_lt_upper_bound. exact H.
Qed.

Lemma le_field_lawful (w : nat) : lawful (le_field w).
Proof.
  intros n rest H. simpl in *. apply get_le_put_le. apply N.ltb_lt. exact H.
Qed.

Lemma conv_field_lawful {A B} (to : A -> B) (from : B -> A) (dom : B -> bool)
  (f : Field A) :
  lawful f -> (forall b, dom b = true -> to (from b) = b) ->
  lawful (conv_field to from dom f).
Proof.
  intros Lf Hinv b rest H. simpl in *. apply andb_true_iff in H.
  destruct H as [Hd Hf]. rewrite (Lf _ _ Hf), (Hinv _ Hd). reflexivity.
Qed.

Lemma pair_field_lawful {A B} (fa : Field A) (fb : Field B) :
  lawful fa -> lawful fb -> lawful (pair_field fa fb).
Proof.
  intros La Lb [a b] rest H. simpl in *. apply andb_true_iff in H.
  destruct H as [Ha Hb].
  rewrite <- app_assoc, (La _ _ Ha), (Lb _ _ Hb). reflexivity.
Qed.

Lemma string_field_lawful : lawful string_field.
Proof.
  intros s rest H. cbn [string_field fits put get] in *.
  apply N.ltb_lt in H. rewrite <- app_assoc.
  rewrite (get_le_put_le 4 _ _ H), Nat2N.id.
  assert (Hle : (length (String.list_byte_of_string s)
                 <=? length (String.list_byte_of_string s ++ rest)%list)%nat = true).
  { apply Nat.leb_le. rewrite length_app. lia. }
  rewrite Hle, firstn_app, Nat.sub_diag, firstn_all, skipn_app, Nat.sub_diag,
    skipn_all. simpl. rewrite app_nil_r, String.string_of_list_byte_of_string.
  reflexivity.
Qed.

Lemma le_layout_lawful : lawful_layout le_layout.
Proof.
  assert (LN : lawful (Z_field 1) /\ lawful (Z_field 2)).
  { split; (apply conv_field_lawful; [apply le_field_lawful|]);
      intros z Hz; apply Z.leb_le in Hz; apply Z2N.id, Hz. }
  repeat split; simpl.
  - apply conv_field_lawful; [|intros []; reflexivity].
    repeat apply pair_field_lawful.
    + apply string_field_lawful.
    + apply conv_field_lawful; [apply le_field_lawful | intros []; reflexivity].
    + apply LN.
    + apply conv_field_lawful; [apply le_field_lawful | intros []; reflexivity].
  - apply conv_field_lawful; [apply le_field_lawful|]. intros n _. apply Nat2N.id.
  - apply conv_field_lawful; [|intros []; reflexivity].
    apply pair_field_lawful; [apply string_field_lawful | apply LN].
Qed.

Lemma encode_decode_canonical_witness :
  (exists l',
      decode le_layout (encode le_layout creature_rats) = Decoded l'
      /\ ll_head l' = ll_head creature_rats
      /\ same_entries (ll_entries l') (ll_entries creature_rats)
      /\ StronglySorted entry_le (ll_entries l')
      /\ encode le_layout l' = encode le_layout creature_rats
      /\ decode le_layout (encode le_layout l') = Decoded l')
  /\ encode le_layout creature_rats = encode le_layout creature_rats'.
Proof.
  apply (encode_decode_canonical le_layout creature_rats creature_rats').
  - apply le_layout_lawful.
  - repeat split; try reflexivity.
    + repeat constructor.
    + repeat constructor; simpl; intuition discriminate.
  - repeat split; try reflexivity.
    + repeat constructor.
    + repeat constructor; simpl; intuition discriminate.
  - reflexivity.
  - intros e. simpl. tauto.
Defined.

End CodecFacts.

(** ** Runs on the test double *)

Example split_never_merge :
  Py.split "," "Rats.esp,,Bats.esp," = ["Rats.esp"; ""; "Bats.esp"; ""].
Proof. reflexivity. Qed.

Example split_empty : Py.split "," "" = [""].
Proof. reflexivity. Qed.

Example path_join_base_dir :
  Py.path_join "/opt/omw" "./empty.esp" = "/opt/omw/./empty.esp"
  /\ Py.path_join "/opt/omw/" "./empty.esp" = "/opt/omw/./empty.esp"
  /\ Py.path_join "" "./empty.esp" = "./empty.esp".
Proof. repeat split. Qed.

Example rstrip_nul_keeps_inner :
  Py.rstrip_nul (String "a" (String zero (String "b" (String zero (String zero "")))))
  = String "a" (String zero "b").
Proof. reflexivity. Qed.

Example report_of_sample :
  report_diff (fst Double.sample_report)
  = [heading "Leveled Creatures"; heading "Added";
     entry_line "rat_a"; entry_line "rat_b"].
Proof. reflexivity. Qed.

Example merge_lists_two_mods :
  @merge_lists Double.lib "two.cfg" (Some "out.esp")
  = ([EParse "/opt/omw/./empty.esp";
      EPrint "Merging: Rats.esp"; EParse "/mods/rats/Rats.esp"; EMerge Double.rats;
      EPrint (heading "Leveled Creatures"); EPrint (heading "Added");
      EPrint (entry_line "rat_a"); EPrint (entry_line "rat_b");
      EPrint "Merging: Gnats.esp"; EParse "/mods/bats/Gnats.esp"; EMerge Double.gnats;
      EPrint (heading "Leveled Creatures"); EPrint (heading "Added");
      EPrint (entry_line "rat_a"); EPrint (entry_line "rat_b");
      EEsmWrite "out.esp"],
     Ret ["/opt/omw/./empty.esp"; "/mods/rats/Rats.esp"; "/mods/bats/Gnats.esp"]).
Proof. reflexivity. Qed.

Example enable_plugin_disabled :
  trace (@enable_plugin Double.lib "two.cfg" "Cats.esp")
  = [EPrint "Enabling Cats.esp."; EEnable Double.cats; ECfgWrite].
Proof. reflexivity. Qed.

Example clean_mods_stale :
  trace (@clean_mods Double.lib "stale.cfg")
  = [EPrint "Removing data entry for /mods/gone";
     ECfgRemove (mkEntry "data" "/mods/gone");
     EPrint "Removing content entry for Gone.esp";
     ECfgRemove (mkEntry "content" "Gone.esp");
     ECfgWrite].
Proof. reflexivity. Qed.

Example encode_creature_rats :
  Codec.decode Codec.le_layout (Codec.encode Codec.le_layout Codec.creature_rats)
  = Codec.Decoded Codec.creature_rats'.
Proof. vm_compute. reflexivity. Qed.

(** * More properties *)

(** ** Runs and their calls *)

Lemma calls_app (t1 t2 : list event) : calls (t1 ++ t2)%list = (calls t1 ++ calls t2)%list.
Proof. apply filter_app. Qed.

Lemma calls_print_cons (line : string) (t : list event) :
  calls (EPrint line :: t) = calls t.
Proof. reflexivity. Qed.

Lemma calls_prints (ls : list string) : calls (map EPrint ls) = [].
Proof. induction ls; simpl; auto. Qed.

Lemma xcalls_app (t1 t2 : list xevent) :
  xcalls (t1 ++ t2)%list = (xcalls t1 ++ xcalls t2)%list.
Proof. apply filter_app. Qed.

Lemma removed_entries_app (t1 t2 : list event) :
  removed_entries (t1 ++ t2)%list = (removed_entries t1 ++ removed_entries t2)%list.
Proof.
  induction t1 as [|e t1 IH]; simpl; [reflexivity|].
  destruct e; simpl; rewrite IH; reflexivity.
Qed.

Lemma xbind_ret_l {A B} (a : A) (f : A -> MX B) : xbind (xret a) f = f a.
Proof. unfold xbind, xret. destruct (f a). reflexivity. Qed.

Lemma xbind_returns {A B} (t : list xevent) (a : A) (f : A -> MX B) :
  xbind (t, Ret a) f = ((t ++ fst (f a))%list, snd (f a)).
Proof. simpl. destruct (f a). reflexivity. Qed.

Lemma for_each_prints {A} (line : A -> string) (l : list A) :
  for_each (fun x => print (line x)) l = (map EPrint (map line l), Ret tt).
Proof.
  unfold for_each. induction l as [|x l IH]; cbn [foldM map]; [reflexivity|].
  change (print (line x)) with ([EPrint (line x)], @Ret unit tt).
  rewrite bind_returns. cbn beta. rewrite IH. reflexivity.
Qed.

(** ** More on [merge_lists] *)

Section MergeCalls.
Context {L : Library}.

Lemma merge_plugin_calls (bl : list string) (m : Esm) (p : Plugin) :
  exists t,
    merge_plugin bl m p = (t, Ret (if selected bl p then fold_step m p else m))
    /\ calls t = if selected bl p then [EParse (plugin_path p); EMerge p] else [].
Proof.
  unfold merge_plugin, fold_step. destruct (selected bl p).
  - destruct (merge_with m (parse_records (plugin_path p))) as [m' [d n]].
    simpl. destruct (Py.truthy n); simpl.
    + eexists. split; [reflexivity|]. unfold calls. simpl. f_equal. f_equal.
      rewrite app_nil_r. apply calls_prints.
    + eexists. split; reflexivity.
  - exists []. split; reflexivity.
Qed.

Lemma merge_plugins_calls (bl : list string) (l : list Plugin) (m : Esm) :
  exists t,
    foldM (merge_plugin bl) m l
    = (t, Ret (fold_left fold_step (filter (selected bl) l) m))
    /\ calls t
       = flat_map (fun p => [EParse (plugin_path p); EMerge p]) (filter (selected bl) l).
Proof.
  revert m. induction l as [|p l IH]; intros m; cbn [foldM filter].
  - exists []. split; reflexivity.
  - destruct (merge_plugin_calls bl m p) as [t [E C]]. rewrite E, bind_returns.
    destruct (selected bl p) eqn:S.
    + destruct (IH (fold_step m p)) as [t' [E' C']]. rewrite E'.
      exists (t ++ t')%list. split; [reflexivity|].
      rewrite calls_app, C, C'. reflexivity.
    + destruct (IH m) as [t' [E' C']]. rewrite E'.
      exists (t ++ t')%list. split; [reflexivity|].
      rewrite calls_app, C, C'. reflexivity.
Qed.

(** X1.  Leaving the printed lines aside, a run of [merge_lists] on a
    configuration with mods is: parse [empty.esp]; then, for each
    selected plugin in listing order, parse its file and fold it in; then
    write the destination.  The file of a plugin that is disabled or
    excluded is not even opened.  Without mods there is no call. *)
Theorem merge_lists_call_skeleton (omw_cfg : string) (out : option string) :
  calls (trace (merge_lists omw_cfg out))
  = match get_mods (load_config omw_cfg) with
    | [] => []
    | _ :: _ =>
        (EParse empty_esp
         :: flat_map (fun p => [EParse (plugin_path p); EMerge p])
              (merge_sequence omw_cfg)
         ++ [EEsmWrite match out with
                       | None | Some EmptyString => default_out
                       | Some o => o
                       end])%list
    end.
Proof.
  unfold merge_lists, merge_sequence, listed_plugins.
  destruct (get_mods (load_config omw_cfg)) as [|x mods]; [reflexivity|].
  rewrite foldM_mods_plugins.
  destruct (merge_plugins_calls blacklist (flat_map mod_plugins (x :: mods))
              (parse_records empty_esp)) as [t [E C]].
  unfold emit. rewrite bind_returns, E. unfold ret. cbn [trace result fst snd bind].
  rewrite !calls_app, C. reflexivity.
Qed.

(** X2.  On a configuration with mods the one write of [merge_lists] is
    its last effect, after every line printed, and it goes to the path
    the caller gave; an empty path counts as no path. *)
Theorem merge_lists_write_is_last (omw_cfg : string) (out : option string) :
  get_mods (load_config omw_cfg) <> [] ->
  exists t,
    trace (merge_lists omw_cfg out)
    = (t ++ [EEsmWrite match out with
                       | None | Some EmptyString => default_out
                       | Some o => o
                       end])%list
    /\ writes t = []
    /\ trace (merge_lists omw_cfg (Some "")) = trace (merge_lists omw_cfg None).
Proof.
  intros Hmods.
  destruct (merge_lists_run omw_cfg out Hmods) as [t [dest [E [_ D]]]].
  pose proof (merge_lists_writes omw_cfg out Hmods) as W.
  rewrite E in *. cbn [trace fst] in *. subst dest.
  exists (EParse empty_esp :: t). split; [reflexivity|]. split.
  - change (EParse empty_esp :: t ++ ?w)%list
      with ((EParse empty_esp :: t) ++ w)%list in W.
    rewrite writes_app in W.
    change (writes (EParse empty_esp :: t) ++ [EEsmWrite
              match out with
              | None | Some EmptyString => default_out
              | Some o => o
              end] = [] ++ [EEsmWrite
              match out with
              | None | Some EmptyString => default_out
              | Some o => o
              end])%list in W.
    apply app_inv_tail in W. exact W.
  - reflexivity.
Qed.

(** X3.  Mods but no plugin to merge (all disabled or excluded): the
    command does not stop as it does without mods; it writes the document
    of [empty.esp], untouched, to the destination. *)
Theorem merge_lists_nothing_selected (omw_cfg : string) (out : option string) :
  get_mods (load_config omw_cfg) <> [] ->
  merge_sequence omw_cfg = [] ->
  merge_lists omw_cfg out
  = ([EParse empty_esp;
      EEsmWrite match out with
                | None | Some EmptyString => default_out
                | Some o => o
                end],
     Ret (parse_records empty_esp)).
Proof.
  intros Hmods Hseq. unfold merge_lists.
  destruct (get_mods (load_config omw_cfg)) as [|x mods] eqn:E; [congruence|].
  rewrite foldM_mods_plugins, foldM_only_selected.
  unfold merge_sequence, listed_plugins in Hseq. rewrite E in Hseq. rewrite Hseq.
  reflexivity.
Qed.

End MergeCalls.

(** ** The exclusion list *)

Lemma split_cons (sep : ascii) (s : string) :
  exists h t, Py.split sep s = h :: t.
Proof.
  destruct s as [|c s]; simpl; [eauto|].
  destruct (Ascii.eqb c sep); [eauto|]. destruct (Py.split sep s); eauto.
Qed.

Lemma concat_split (sep : ascii) (s : string) :
  String.concat (String sep EmptyString) (Py.split sep s) = s.
Proof.
  induction s as [|c s IH]; simpl; [reflexivity|].
  destruct (split_cons sep s) as [h [t E]]. rewrite E in *.
  destruct (Ascii.eqb c sep) eqn:C.
  - apply Ascii.eqb_eq in C. subst c.
    change (String.concat (String sep "") ("" :: h :: t))
      with (String sep (String.concat (String sep "") (h :: t))).
    rewrite IH. reflexivity.
  - destruct t as [|h' t].
    + simpl in *. rewrite IH. reflexivity.
    + change (String.concat (String sep "") (String c h :: h' :: t))
        with (String c (h ++ String sep "" ++ String.concat (String sep "") (h' :: t))).
      change (String.concat (String sep "") (h :: h' :: t))
        with (h ++ String sep "" ++ String.concat (String sep "") (h' :: t)) in IH.
      rewrite IH. reflexivity.
Qed.

Lemma split_pieces_have_no_sep (sep : ascii) (s x : string) :
  In x (Py.split sep s) -> ~ In sep (list_ascii_of_string x).
Proof.
  revert x. induction s as [|c s IH]; intros x H; simpl in H.
  - destruct H as [<- | []]. simpl. tauto.
  - destruct (Ascii.eqb c sep) eqn:C.
    + destruct H as [<- | H]; [simpl; tauto | apply IH, H].
    + apply Ascii.eqb_neq in C.
      destruct (split_cons sep s) as [h [t E]]. rewrite E in *.
      destruct H as [<- | H].
      * simpl. intros [F | F]; [congruence|].
        apply (IH h); [left; reflexivity | exact F].
      * apply IH. right. exact H.
Qed.

Section Exclusion.
Context {L : Library}.

(** X4.  The exclusion list is the value of [never_merge] cut at its
    commas and nothing more: joined with commas it gives the value back
    (no piece is trimmed or dropped) and no piece holds a comma. *)
Theorem blacklist_is_never_merge_cut_at_commas :
  String.concat "," blacklist = never_merge
  /\ blacklist <> []
  /\ Forall (fun x => ~ In ","%char (list_ascii_of_string x)) blacklist.
Proof.
  split; [apply concat_split|]. split.
  - unfold blacklist. destruct (split_cons ","%char never_merge) as [h [t E]].
    rewrite E. discriminate.
  - apply Forall_forall. intros x. apply split_pieces_have_no_sep.
Qed.

(** X5.  A plugin whose name holds a comma cannot be excluded: it is
    folded in exactly when it is listed and enabled, whatever
    [never_merge] says. *)
Theorem comma_name_is_never_excluded (omw_cfg : string) (out : option string)
  (p : Plugin) :
  In ","%char (list_ascii_of_string (plugin_name p)) ->
  (In (EMerge p) (trace (merge_lists omw_cfg out))
   <-> In p (listed_plugins omw_cfg) /\ plugin_enabled p = true).
Proof.
  intros Hc. rewrite merged_plugins_In, merge_lists_merged_plugins.
  unfold merge_sequence. rewrite filter_In, selected_iff.
  pose proof (split_pieces_have_no_sep ","%char never_merge (plugin_name p)) as N.
  unfold blacklist. tauto.
Qed.

End Exclusion.

(** ** More on the report *)

Lemma string_leb_trans (a b c : string) :
  String.leb a b = true -> String.leb b c = true -> String.leb a c = true.
Proof.
  unfold String.leb.
  destruct (String.compare a b) eqn:Eab; try discriminate;
    destruct (String.compare b c) eqn:Ebc; try discriminate; intros _ _.
  - apply String.compare_eq_iff in Eab, Ebc. subst. rewrite string_compare_refl.
    reflexivity.
  - apply String.compare_eq_iff in Eab. subst. rewrite Ebc. reflexivity.
  - apply String.compare_eq_iff in Ebc. subst. rewrite Eab. reflexivity.
  - rewrite (string_compare_lt_trans _ _ _ Eab Ebc). reflexivity.
Qed.

(** X6.  Within a category that has names the report prints every name
    once, in ascending byte order of the names as the diff holds them. *)
Theorem report_names_are_sorted (label status : string) (printed : bool)
  (name : string) (names : list string) (rest : list Category) :
  exists ordered,
    Permutation (name :: names) ordered
    /\ StronglySorted (fun a b => String.leb a b = true) ordered
    /\ report_statuses label printed ((status, name :: names) :: rest)
       = ((if printed then [] else [heading label])
          ++ heading status :: map entry_line ordered
          ++ report_statuses label true rest)%list.
Proof.
  exists (Py.sorted String.leb (name :: names)). split; [|split].
  - apply sorted_perm.
  - apply sorted_sorted; [apply String.leb_total | apply string_leb_trans].
  - reflexivity.
Qed.

Lemma rstrip_nul_decompose (s : string) :
  exists k, s = Py.rstrip_nul s ++ nul_run k.
Proof.
  induction s as [|c s [k IH]]; simpl.
  - exists 0. reflexivity.
  - destruct (Py.rstrip_nul s) as [|c' r] eqn:E.
    + destruct (Ascii.eqb c zero) eqn:C.
      * apply Ascii.eqb_eq in C. subst c. exists (S k). simpl in *.
        rewrite IH at 1. reflexivity.
      * exists k. simpl in *. rewrite IH at 1. reflexivity.
    + exists k. simpl in *. rewrite IH at 1. reflexivity.
Qed.

Lemma rstrip_nul_no_trailing_nul (s t : string) :
  Py.rstrip_nul s <> t ++ String zero EmptyString.
Proof.
  revert t. induction s as [|c s IH]; intros t; simpl.
  - destruct t; discriminate.
  - destruct (Py.rstrip_nul s) as [|c' r] eqn:E.
    + destruct (Ascii.eqb c zero) eqn:C.
      * destruct t; discriminate.
      * apply Ascii.eqb_neq in C. destruct t as [|a t]; simpl.
        -- congruence.
        -- destruct t; discriminate.
    + destruct t as [|a t]; simpl; [discriminate|].
      intros H. injection H as _ H. apply (IH t). exact H.
Qed.

(** X7.  The line of a name differs from the name by trailing NUL bytes
    only: after the two tabs comes a string that, followed by some NULs,
    is the name, and that does not end in NUL; NULs inside the name are
    kept. *)
Theorem entry_line_strips_trailing_nuls (name : string) :
  exists shown k,
    entry_line name = tab ++ tab ++ shown
    /\ name = shown ++ nul_run k
    /\ (forall t, shown <> t ++ String zero EmptyString)
    /\ entry_line shown = entry_line name.
Proof.
  destruct (rstrip_nul_decompose name) as [k Hk].
  exists (Py.rstrip_nul name), k. split; [reflexivity|]. split; [exact Hk|].
  split; [intros t; apply rstrip_nul_no_trailing_nul|].
  unfold entry_line. f_equal. f_equal.
  generalize (rstrip_nul_no_trailing_nul name).
  generalize (Py.rstrip_nul name). clear. intros s.
  induction s as [|c s IH]; intros H; simpl; [reflexivity|].
  assert (Hs : forall t, s <> t ++ String zero EmptyString).
  { intros t E. apply (H (String c t)). simpl. rewrite E. reflexivity. }
  rewrite (IH Hs). destruct s as [|c' s]; [|reflexivity].
  destruct (Ascii.eqb c zero) eqn:C; [|reflexivity].
  apply Ascii.eqb_eq in C. subst c. exfalso. apply (H EmptyString). reflexivity.
Qed.

(** ** More on [clean_mods], [enable_plugin] and [disable_plugin] *)

Section CleanMods.
Context {L : Library}.

(** The data entries [clean_mods] takes for invalid. *)
Lemma clean_entries_run (es acc : list ConfigEntry) (cfg : ConfigFile) :
  exists t,
    foldM clean_entry (acc, cfg) es
    = (t, Ret ((acc ++ filter (fun e => negb (path_exists (entry_value e))) es)%list,
               fold_left cfg_remove
                 (filter (fun e => negb (path_exists (entry_value e))) es) cfg))
    /\ calls t
       = map ECfgRemove (filter (fun e => negb (path_exists (entry_value e))) es).
Proof.
  revert acc cfg. induction es as [|e es IH]; intros acc cfg; cbn [foldM filter].
  - exists []. rewrite app_nil_r. split; reflexivity.
  - unfold clean_entry at 1.
    destruct (negb (path_exists (entry_value e))) eqn:B.
    + destruct (IH (acc ++ [e])%list (cfg_remove cfg e)) as [t [E C]].
      unfold print, emit. cbn [bind ret app]. rewrite E.
      rewrite <- app_assoc. eexists. split; [reflexivity|].
      unfold calls in *. cbn [filter is_print negb map]. rewrite C. reflexivity.
    + destruct (IH acc cfg) as [t [E C]]. rewrite bind_ret_l, E.
      exists t. split; [reflexivity | exact C].
Qed.

Lemma clean_plugins_run (ps : list string) (cfg : ConfigFile) :
  exists t,
    foldM clean_plugin cfg ps
    = (t, Ret (fold_left cfg_remove (map (mkEntry "content") ps) cfg))
    /\ calls t = map ECfgRemove (map (mkEntry "content") ps).
Proof.
  revert cfg. induction ps as [|p ps IH]; intros cfg; cbn [foldM map fold_left].
  - exists []. split; reflexivity.
  - destruct (IH (cfg_remove cfg (mkEntry "content" p))) as [t [E C]].
    unfold clean_plugin at 1, print, emit. cbn [bind ret app]. rewrite E.
    eexists. split; [reflexivity|].
    unfold calls in *. cbn [filter is_print negb map]. rewrite C. reflexivity.
Qed.

(** All of a run of [clean_mods], printed lines aside. *)
Lemma clean_mods_run (omw_cfg : string) :
  let cfg := load_config (get_full_path omw_cfg) in
  let bad_mods :=
    filter (fun e => negb (path_exists (entry_value e))) (find_key cfg "data") in
  let bad_plugins := get_orphaned_plugins (fold_left cfg_remove bad_mods cfg) in
  let removed := (bad_mods ++ map (mkEntry "content") bad_plugins)%list in
  result (clean_mods omw_cfg) = Ret (fold_left cfg_remove removed cfg)
  /\ calls (trace (clean_mods omw_cfg))
     = (map ECfgRemove removed
        ++ match removed with
           | [] => []
           | _ :: _ => [ECfgWrite]
           end)%list.
Proof.
  intros cfg bad_mods bad_plugins removed. unfold clean_mods.
  destruct (clean_entries_run (find_key cfg "data") [] cfg) as [t1 [E1 C1]].
  fold cfg. rewrite E1. cbn [app] in *. fold bad_mods in E1, C1 |- *.
  rewrite bind_returns. cbn beta iota.
  fold bad_plugins. subst removed.
  destruct bad_mods as [|b bs] eqn:Hb; destruct bad_plugins as [|p ps] eqn:Hp;
    cbn [fold_left app map] in *.
  - unfold print, emit, ret. cbn [bind app trace result fst snd].
    rewrite calls_app, C1. split; reflexivity.
  - destruct (clean_plugins_run (p :: ps) cfg) as [t2 [E2 C2]].
    unfold print, emit, ret. cbn [bind app trace result fst snd].
    rewrite E2. cbn [bind app trace result fst snd]. split; [reflexivity|].
    rewrite calls_app, calls_print_cons, calls_app, C1, C2. reflexivity.
  - unfold print, emit, ret. cbn [bind app trace result fst snd].
    rewrite fold_left_app. cbn [fold_left map]. split; [reflexivity|].
    rewrite calls_app, calls_print_cons, C1, app_nil_r. reflexivity.
  - destruct (clean_plugins_run (p :: ps)
                (fold_left cfg_remove bs (cfg_remove cfg b))) as [t2 [E2 C2]].
    unfold print, emit, ret. cbn [bind app trace result fst snd].
    rewrite E2. cbn [bind app trace result fst snd].
    rewrite fold_left_app. split; [reflexivity|].
    rewrite calls_app, calls_app, C1, C2, map_app, <- app_assoc. reflexivity.
Qed.

End CleanMods.

Lemma removed_entries_of_calls (t : list event) :
  removed_entries (calls t) = removed_entries t.
Proof.
  induction t as [|e t IH]; [reflexivity|].
  destruct e; cbn [calls filter is_print negb removed_entries] in *;
    fold (calls t); rewrite ?IH; reflexivity.
Qed.

Lemma removed_entries_removes (l : list ConfigEntry) :
  removed_entries (map ECfgRemove l) = l.
Proof. induction l as [|e l IH]; simpl; [|rewrite IH]; reflexivity. Qed.

Lemma writes_of_calls (t : list event) : writes (calls t) = writes t.
Proof.
  induction t as [|e t IH]; [reflexivity|].
  destruct e; cbn [calls writes filter is_print is_write negb] in *;
    fold (calls t); fold (writes t); fold (writes (calls t));
    rewrite ?IH; reflexivity.
Qed.

Lemma writes_removes (l : list ConfigEntry) : writes (map ECfgRemove l) = [].
Proof. induction l; simpl; auto. Qed.

Section CleanModsFacts.
Context {L : Library}.

Lemma clean_mods_removed_and_calls (omw_cfg : string) :
  removed_entries (trace (clean_mods omw_cfg))
  = (filter (fun e => negb (path_exists (entry_value e)))
       (find_key (load_config (get_full_path omw_cfg)) "data")
     ++ map (mkEntry "content")
          (get_orphaned_plugins
             (fold_left cfg_remove
                (filter (fun e => negb (path_exists (entry_value e)))
                   (find_key (load_config (get_full_path omw_cfg)) "data"))
                (load_config (get_full_path omw_cfg)))))%list
  /\ calls (trace (clean_mods omw_cfg))
     = (map ECfgRemove
          (filter (fun e => negb (path_exists (entry_value e)))
             (find_key (load_config (get_full_path omw_cfg)) "data")
           ++ map (mkEntry "content")
                (get_orphaned_plugins
                   (fold_left cfg_remove
                      (filter (fun e => negb (path_exists (entry_value e)))
                         (find_key (load_config (get_full_path omw_cfg)) "data"))
                      (load_config (get_full_path omw_cfg)))))
        ++ match (filter (fun e => negb (path_exists (entry_value e)))
                    (find_key (load_config (get_full_path omw_cfg)) "data")
                  ++ map (mkEntry "content")
                       (get_orphaned_plugins
                          (fold_left cfg_remove
                             (filter (fun e => negb (path_exists (entry_value e)))
                                (find_key (load_config (get_full_path omw_cfg)) "data"))
                             (load_config (get_full_path omw_cfg)))))%list with
           | [] => []
           | _ :: _ => [ECfgWrite]
           end)%list.
Proof.
  destruct (clean_mods_run omw_cfg) as [_ C]. cbv zeta in C. split; [|exact C].
  assert (W : forall l : list ConfigEntry,
             removed_entries match l with
                             | [] => []
                             | _ :: _ => [ECfgWrite]
                             end = []) by (intros []; reflexivity).
  rewrite <- removed_entries_of_calls, C, removed_entries_app,
    removed_entries_removes, W.
  apply app_nil_r.
Qed.

(** X8.  [clean_mods] removes the [data] entries whose path does not
    exist, in the order [find_key] gives them, then one [content] entry
    per plugin that is orphaned once those are gone, and nothing else;
    it never exits, and the configuration it ends with is the loaded one
    less these entries. *)
Theorem clean_mods_removes_the_invalid_entries (omw_cfg : string) :
  let cfg := load_config (get_full_path omw_cfg) in
  let bad_mods :=
    filter (fun e => negb (path_exists (entry_value e))) (find_key cfg "data") in
  let bad_plugins := get_orphaned_plugins (fold_left cfg_remove bad_mods cfg) in
  removed_entries (trace (clean_mods omw_cfg))
  = (bad_mods ++ map (mkEntry "content") bad_plugins)%list
  /\ result (clean_mods omw_cfg)
     = Ret (fold_left cfg_remove
              (bad_mods ++ map (mkEntry "content") bad_plugins)%list cfg).
Proof.
  intros cfg bad_mods bad_plugins.
  destruct (clean_mods_run omw_cfg) as [R _].
  destruct (clean_mods_removed_and_calls omw_cfg) as [Hr _].
  split; [exact Hr | exact R].
Qed.

(** X9.  [clean_mods] writes the configuration once, after all its
    removals, when it removed something, and not at all otherwise. *)
Theorem clean_mods_writes_after_removals (omw_cfg : string) :
  let removed := removed_entries (trace (clean_mods omw_cfg)) in
  calls (trace (clean_mods omw_cfg))
  = (map ECfgRemove removed
     ++ match removed with
        | [] => []
        | _ :: _ => [ECfgWrite]
        end)%list
  /\ writes (trace (clean_mods omw_cfg))
     = match removed with
       | [] => []
       | _ :: _ => [ECfgWrite]
       end.
Proof.
  intros removed.
  destruct (clean_mods_removed_and_calls omw_cfg) as [Hr C].
  subst removed. rewrite Hr. split; [exact C|].
  rewrite <- writes_of_calls, C, writes_app, writes_removes.
  destruct (_ ++ map _ _)%list; reflexivity.
Qed.

End CleanModsFacts.

Section EnableDisable.
Context {L : Library}.

(** X10.  [enable_plugin] changes the configuration for a plugin that is
    found and not enabled, and only then: it calls [plugin.enable()] on
    the plugin found and writes once.  In every other case (plugin not
    found, or enabled already) it exits with status 1 and has made no
    call. *)
Theorem enable_plugin_all_or_nothing (omw_cfg name : string) :
  let cfg := load_config (get_full_path omw_cfg) in
  (exists p,
      find_plugin cfg name = Some p
      /\ plugin_enabled p = false
      /\ calls (trace (enable_plugin omw_cfg name)) = [EEnable p; ECfgWrite]
      /\ result (enable_plugin omw_cfg name) = Ret (plugin_enable p cfg))
  \/ ((find_plugin cfg name = None
       \/ exists p, find_plugin cfg name = Some p /\ plugin_enabled p = true)
      /\ calls (trace (enable_plugin omw_cfg name)) = []
      /\ result (enable_plugin omw_cfg name) = Exit 1%Z).
Proof.
  intros cfg. unfold enable_plugin. fold cfg.
  destruct (find_plugin cfg name) as [p|] eqn:F.
  - destruct (plugin_enabled p) eqn:E.
    + right. split; [right; exists p; auto|]. split; reflexivity.
    + left. exists p. repeat split; auto.
  - right. split; [left; reflexivity|]. split; reflexivity.
Qed.

(** X11.  [disable_plugin] exits, with status 1 and no call made, only
    when the plugin is not found.  For a plugin that is found it calls
    [plugin.disable()] once and writes once, enabled or not, and
    returns. *)
Theorem disable_plugin_found_or_not (omw_cfg name : string) :
  let cfg := load_config (get_full_path omw_cfg) in
  (find_plugin cfg name = None
   /\ calls (trace (disable_plugin omw_cfg name)) = []
   /\ result (disable_plugin omw_cfg name) = Exit 1%Z)
  \/ (exists p,
         find_plugin cfg name = Some p
         /\ calls (trace (disable_plugin omw_cfg name)) = [EDisable p; ECfgWrite]
         /\ result (disable_plugin omw_cfg name) = Ret (plugin_disable p cfg)).
Proof.
  intros cfg. unfold disable_plugin. fold cfg.
  destruct (find_plugin cfg name) as [p|] eqn:F.
  - right. exists p. destruct (plugin_enabled p); repeat split.
  - left. repeat split.
Qed.

End EnableDisable.

(** ** Paths *)

Lemma has_sep_app (a b : string) :
  PyPath.has_sep (a ++ b) = (PyPath.has_sep a || PyPath.has_sep b)%bool.
Proof.
  induction a as [|c a IH]; simpl; [reflexivity|].
  rewrite IH, orb_assoc. reflexivity.
Qed.

(** Cutting [a ++ "/" ++ n] at its last separator, [n] without one. *)
Lemma split_at_last_sep_join (a n : string) :
  PyPath.has_sep n = false ->
  PyPath.split_at_last_sep (a ++ String "/" n) = (a ++ "/", n).
Proof.
  intros Hn. induction a as [|c a IH]; simpl.
  - rewrite Hn. reflexivity.
  - rewrite has_sep_app, IH. simpl. rewrite orb_true_r. reflexivity.
Qed.

Lemma split_at_last_sep_no_sep (n : string) :
  PyPath.has_sep n = false -> PyPath.split_at_last_sep n = ("", n).
Proof.
  destruct n as [|c n]; simpl; [reflexivity|].
  intros H. apply orb_false_iff in H. destruct H as [Hc Hn]. rewrite Hn, Hc.
  reflexivity.
Qed.

Lemma has_sep_false_start (n : string) :
  PyPath.has_sep n = false -> Py.starts_with_slash n = false.
Proof.
  destruct n as [|c n]; simpl; [reflexivity|].
  intros H. apply orb_false_iff in H. apply H.
Qed.

Lemma ends_with_slash_app (a : string) : Py.ends_with_slash (a ++ "/") = true.
Proof.
  induction a as [|c a IH]; [reflexivity|].
  simpl. destruct (a ++ "/") eqn:E; [destruct a; discriminate | exact IH].
Qed.

(** Stripping the separator that [os.path.join] put in. *)
Lemma rstrip_sep_join (a : string) :
  a <> "" -> Py.ends_with_slash a = false ->
  PyPath.rstrip_sep (a ++ "/") = a /\ PyPath.all_sep (a ++ "/") = false.
Proof.
  induction a as [|c a IH]; intros Hne He; [congruence|].
  destruct a as [|c' a].
  - simpl in *. rewrite He. split; reflexivity.
  - assert (Hne' : String c' a <> "") by discriminate.
    assert (He' : Py.ends_with_slash (String c' a) = false) by exact He.
    destruct (IH Hne' He') as [R A].
    change (String c (String c' a) ++ "/") with (String c (String c' a ++ "/")).
    cbn [PyPath.rstrip_sep PyPath.all_sep]. rewrite R, A, andb_false_r.
    split; reflexivity.
Qed.

(** The last component of [os.path.join(d, n)] is [n], and its directory
    is [d], when [n] has no separator. *)
Lemma basename_path_join (d n : string) :
  PyPath.has_sep n = false -> PyPath.basename (Py.path_join d n) = n.
Proof.
  intros Hn. unfold Py.path_join, PyPath.basename.
  rewrite (has_sep_false_start n Hn).
  destruct (String.eqb d "") eqn:Ed.
  - apply String.eqb_eq in Ed. subst d. simpl.
    rewrite split_at_last_sep_no_sep by exact Hn. reflexivity.
  - simpl. destruct (Py.ends_with_slash d) eqn:Es.
    + assert (exists a, d = a ++ "/") as [a ->].
      { clear Ed. induction d as [|c d IH]; [discriminate|].
        destruct d as [|c' d].
        - simpl in Es. apply Ascii.eqb_eq in Es. subst c. exists "". reflexivity.
        - destruct (IH Es) as [a Ha]. exists (String c a). simpl. rewrite <- Ha.
          reflexivity. }
      assert (A : forall x : string, (x ++ "/") ++ n = x ++ String "/" n).
      { intros x. induction x as [|c x IH]; simpl; [|rewrite IH]; reflexivity. }
      rewrite A, split_at_last_sep_join by exact Hn. reflexivity.
    + rewrite split_at_last_sep_join by exact Hn. reflexivity.
Qed.

Lemma dirname_path_join (d n : string) :
  d <> "" -> Py.ends_with_slash d = false -> PyPath.has_sep n = false ->
  PyPath.dirname (Py.path_join d n) = d.
Proof.
  intros Hd Hs Hn. unfold Py.path_join, PyPath.dirname.
  rewrite (has_sep_false_start n Hn), Hs.
  apply String.eqb_neq in Hd. rewrite Hd. simpl.
  rewrite split_at_last_sep_join by exact Hn. simpl.
  apply String.eqb_neq in Hd.
  destruct (rstrip_sep_join d Hd Hs) as [R A]. rewrite R, A.
  destruct (String.eqb (d ++ "/") "") eqn:E; [|reflexivity].
  apply String.eqb_eq in E. destruct d; discriminate.
Qed.

Lemma basename_trailing_sep (s : string) : PyPath.basename (s ++ "/") = "".
Proof.
  unfold PyPath.basename.
  rewrite (split_at_last_sep_join s "") by reflexivity. reflexivity.
Qed.

(** ** [list_mods] *)

Section ListMods.
Context {L : Library}.

Lemma list_mods_in_dir (omw_cfg : string) (c : ascii) (dir : string) (path : bool) :
  list_mods omw_cfg (Some (String c dir)) path
  = (map EPrint
       (map (if path then mod_path else mod_name)
          (filter (fun m => String.eqb (PyPath.dirname (mod_path m))
                              (get_full_path (String c dir)))
             (get_mods (load_config (get_full_path omw_cfg))))),
     Ret tt).
Proof. unfold list_mods. destruct path; apply for_each_prints. Qed.

(** X12.  [list_mods] only prints, and returns: one line per mod of the
    configuration, in the order of the configuration, the path of the
    mod or else its name.  With a directory given and not empty, the mods
    kept are those whose [os.path.dirname] is the full path of that
    directory; an empty directory string filters nothing. *)
Theorem list_mods_prints_one_line_per_mod (omw_cfg : string)
  (in_dir : option string) (path : bool) :
  let mods := get_mods (load_config (get_full_path omw_cfg)) in
  let kept :=
    match in_dir with
    | None | Some EmptyString => mods
    | Some d =>
        filter (fun m => String.eqb (PyPath.dirname (mod_path m)) (get_full_path d))
          mods
    end in
  list_mods omw_cfg in_dir path
  = (map EPrint (map (if path then mod_path else mod_name) kept), Ret tt)
  /\ list_mods omw_cfg (Some "") path = list_mods omw_cfg None path.
Proof.
  intros mods kept. split; [|reflexivity].
  unfold list_mods. fold mods. fold kept.
  destruct path; apply for_each_prints.
Qed.

(** X13.  A mod that lies directly in a directory, at
    [os.path.join(d, name)] with [name] free of separators, is listed by
    [list_mods] for that directory, provided the full path [d] of the
    directory is not empty and has no trailing separator. *)
Theorem list_mods_lists_the_mods_of_a_directory (omw_cfg dir name : string)
  (m : Mod) :
  dir <> "" ->
  get_full_path dir <> "" ->
  Py.ends_with_slash (get_full_path dir) = false ->
  PyPath.has_sep name = false ->
  In m (get_mods (load_config (get_full_path omw_cfg))) ->
  mod_path m = Py.path_join (get_full_path dir) name ->
  In (EPrint (mod_name m)) (trace (list_mods omw_cfg (Some dir) false))
  /\ In (EPrint (mod_path m)) (trace (list_mods omw_cfg (Some dir) true)).
Proof.
  intros Hdir Hd Hs Hn Hm Hp.
  assert (K : In m (filter (fun m => String.eqb (PyPath.dirname (mod_path m))
                                       (get_full_path dir))
                      (get_mods (load_config (get_full_path omw_cfg))))).
  { apply filter_In. split; [exact Hm|]. apply String.eqb_eq.
    rewrite Hp. apply dirname_path_join; assumption. }
  destruct dir as [|c dir]; [congruence|].
  split.
  - rewrite list_mods_in_dir. cbn [trace fst]. apply in_map, in_map. exact K.
  - rewrite list_mods_in_dir. cbn [trace fst]. apply in_map.
    apply (in_map mod_path) in K. exact K.
Qed.

End ListMods.

(** ** [uninstall_mod] *)

Section Uninstall.
Context {L : Library} {X : LibraryExt L}.

Lemma disable_enabled_run (ps : list Plugin) (cfg : ConfigFile) :
  exists t,
    xfoldM disable_if_enabled cfg ps
    = (t, Ret (fold_left (fun c p => plugin_disable p c)
                 (filter plugin_enabled ps) cfg))
    /\ xcalls t = map (fun p => XBase (EDisable p)) (filter plugin_enabled ps).
Proof.
  revert cfg. induction ps as [|p ps IH]; intros cfg; cbn [xfoldM filter].
  - exists []. split; reflexivity.
  - unfold disable_if_enabled at 1. destruct (plugin_enabled p).
    + destruct (IH (plugin_disable p cfg)) as [t [E C]].
      unfold xprint, xemit, xret. cbn [xbind app]. rewrite E.
      eexists. split; [reflexivity|].
      unfold xcalls in *. cbn [filter is_xprint is_print negb map]. rewrite C.
      reflexivity.
    + destruct (IH cfg) as [t [E C]]. rewrite xbind_ret_l, E.
      exists t. split; [reflexivity | exact C].
Qed.

(** A run of [uninstall_mod] that finds its mod, printed lines aside. *)
Lemma uninstall_mod_found (omw_cfg name : string) (clean rm : bool) (m : Mod) :
  path_exists (uninstall_target name) = true ->
  find (fun m => String.eqb (mod_path m) (uninstall_target name))
    (get_mods (load_config (get_full_path omw_cfg))) = Some m ->
  let disabled := if clean then filter plugin_enabled (mod_plugins m) else [] in
  xresult (uninstall_mod omw_cfg name clean rm)
  = Ret (cfg_remove
           (fold_left (fun c p => plugin_disable p c) disabled
              (load_config (get_full_path omw_cfg)))
           (mod_entry m))
  /\ xcalls (xtrace (uninstall_mod omw_cfg name clean rm))
     = (map (fun p => XBase (EDisable p)) disabled
        ++ [XBase (ECfgRemove (mod_entry m)); XBase ECfgWrite]
        ++ if rm then [XRmModDir (mod_path m)] else [])%list.
Proof.
  intros He Hf disabled. unfold uninstall_mod. rewrite He, Hf. cbn [negb].
  subst disabled. destruct clean.
  - destruct (mod_plugins m) as [|p ps] eqn:P.
    + rewrite xbind_ret_l. unfold xprint, xemit, xret.
      destruct rm; cbn [xbind app fst snd xtrace xresult]; split; reflexivity.
    + destruct (disable_enabled_run (p :: ps) (load_config (get_full_path omw_cfg)))
        as [t [E C]].
      rewrite E, xbind_returns. unfold xprint, xemit, xret.
      destruct rm; cbn [xbind app fst snd xtrace xresult];
        (split; [reflexivity|]); rewrite xcalls_app, C; reflexivity.
  - rewrite xbind_ret_l. unfold xprint, xemit, xret.
    destruct rm; cbn [xbind app fst snd xtrace xresult]; split; reflexivity.
Qed.

Lemma uninstall_mod_not_found (omw_cfg name : string) (clean rm : bool) :
  path_exists (uninstall_target name) = false
  \/ find (fun m => String.eqb (mod_path m) (uninstall_target name))
       (get_mods (load_config (get_full_path omw_cfg))) = None ->
  xresult (uninstall_mod omw_cfg name clean rm) = Exit 1%Z
  /\ xcalls (xtrace (uninstall_mod omw_cfg name clean rm)) = [].
Proof.
  intros H. unfold uninstall_mod.
  destruct (path_exists (uninstall_target name)) eqn:E; cbn [negb].
  - destruct H as [H | H]; [discriminate|]. rewrite H. split; reflexivity.
  - split; reflexivity.
Qed.

(** X14.  [uninstall_mod] refuses, with status 1 and without any call
    that changes the configuration or the disk, when the path it
    resolves the name to does not exist, and when no mod of the
    configuration has that path. *)
Theorem uninstall_mod_refusals (omw_cfg name : string) (clean rm : bool) :
  path_exists (uninstall_target name) = false
  \/ find (fun m => String.eqb (mod_path m) (uninstall_target name))
       (get_mods (load_config (get_full_path omw_cfg))) = None ->
  xresult (uninstall_mod omw_cfg name clean rm) = Exit 1%Z
  /\ xcalls (xtrace (uninstall_mod omw_cfg name clean rm)) = [].
Proof. apply uninstall_mod_not_found. Qed.

(** X15.  When it finds the mod, [uninstall_mod] removes the entry of the
    first mod with the resolved path and writes the configuration once.
    With [clean] it first calls [plugin.disable()] on the enabled
    plugins of that mod, in order, and on no other; without [clean] it
    disables nothing.  With [rm] it deletes the directory of the mod,
    after the write. *)
Theorem uninstall_mod_calls (omw_cfg name : string) (clean rm : bool) (m : Mod) :
  path_exists (uninstall_target name) = true ->
  find (fun m => String.eqb (mod_path m) (uninstall_target name))
    (get_mods (load_config (get_full_path omw_cfg))) = Some m ->
  xcalls (xtrace (uninstall_mod omw_cfg name clean rm))
  = (map (fun p => XBase (EDisable p))
       (if clean then filter plugin_enabled (mod_plugins m) else [])
     ++ [XBase (ECfgRemove (mod_entry m)); XBase ECfgWrite]
     ++ if rm then [XRmModDir (mod_path m)] else [])%list
  /\ xresult (uninstall_mod omw_cfg name clean rm)
     = Ret (cfg_remove
              (fold_left (fun c p => plugin_disable p c)
                 (if clean then filter plugin_enabled (mod_plugins m) else [])
                 (load_config (get_full_path omw_cfg)))
              (mod_entry m)).
Proof.
  intros He Hf. destruct (uninstall_mod_found omw_cfg name clean rm m He Hf) as [R C].
  split; [exact C | exact R].
Qed.

(** X16.  [uninstall_mod] deletes a directory only on request: a call of
    [rm_mod_dir] means that [rm] was given, that the directory is the
    path the name resolves to, that this path exists and belongs to a mod
    of the configuration, and that the configuration was written. *)
Theorem uninstall_mod_deletes_only_on_request (omw_cfg name path : string)
  (clean rm : bool) :
  In (XRmModDir path) (xtrace (uninstall_mod omw_cfg name clean rm)) ->
  rm = true
  /\ path = uninstall_target name
  /\ path_exists path = true
  /\ (exists m, In m (get_mods (load_config (get_full_path omw_cfg)))
                /\ mod_path m = path)
  /\ In (XBase ECfgWrite) (xtrace (uninstall_mod omw_cfg name clean rm)).
Proof.
  intros H.
  assert (Hc : In (XRmModDir path)
                  (xcalls (xtrace (uninstall_mod omw_cfg name clean rm)))).
  { apply filter_In. split; [exact H | reflexivity]. }
  destruct (path_exists (uninstall_target name)) eqn:He.
  2:{ destruct (uninstall_mod_not_found omw_cfg name clean rm (or_introl He))
        as [_ C]. rewrite C in Hc. destruct Hc. }
  destruct (find (fun m => String.eqb (mod_path m) (uninstall_target name))
              (get_mods (load_config (get_full_path omw_cfg)))) as [m|] eqn:Hf.
  2:{ destruct (uninstall_mod_not_found omw_cfg name clean rm (or_intror Hf))
        as [_ C]. rewrite C in Hc. destruct Hc. }
  destruct (uninstall_mod_found omw_cfg name clean rm m He Hf) as [_ C].
  assert (Hw : In (XBase ECfgWrite)
                  (xcalls (xtrace (uninstall_mod omw_cfg name clean rm)))).
  { rewrite C. apply in_or_app. right. right. left. reflexivity. }
  apply filter_In in Hw. destruct Hw as [Hw _].
  rewrite C in Hc. apply in_app_or in Hc. destruct Hc as [Hc | Hc].
  { apply in_map_iff in Hc. destruct Hc as [p [Hp _]]. discriminate Hp. }
  destruct Hc as [Hc | [Hc | Hc]]; try discriminate Hc.
  destruct rm; [|destruct Hc].
  destruct Hc as [Hc | []]. injection Hc as <-.
  apply find_some in Hf. destruct Hf as [Hin Heq]. apply String.eqb_eq in Heq.
  repeat split; try assumption.
  - rewrite Heq. exact He.
  - exists m. split; [exact Hin | reflexivity].
Qed.

End Uninstall.

Section UninstallByName.
Context {L : Library} {X : LibraryExt L}.

(** X17.  A mod that [uninstall_mod] takes out by its bare name is one
    that [list_mods] shows for the mods directory: when the name has no
    separator and the run returns, some mod of the configuration lies at
    [os.path.join(mods_dir, name)], its entry is the one removed, and
    (for a mods directory that is its own full path, not empty and
    without trailing separator) [list_mods] for that directory prints its
    name. *)
Theorem uninstall_by_name_removes_a_listed_mod (omw_cfg name : string)
  (clean rm : bool) (cfg' : ConfigFile) :
  PyPath.has_sep name = false ->
  mods_dir <> "" ->
  Py.ends_with_slash mods_dir = false ->
  get_full_path mods_dir = mods_dir ->
  xresult (uninstall_mod omw_cfg name clean rm) = Ret cfg' ->
  exists m,
    In m (get_mods (load_config (get_full_path omw_cfg)))
    /\ mod_path m = Py.path_join mods_dir name
    /\ In (XBase (ECfgRemove (mod_entry m)))
         (xtrace (uninstall_mod omw_cfg name clean rm))
    /\ In (EPrint (mod_name m)) (trace (list_mods omw_cfg (Some mods_dir) false)).
Proof.
  intros Hn Hd Hs Hfull Hret.
  assert (T : uninstall_target name = Py.path_join mods_dir name).
  { unfold uninstall_target. rewrite Hn. reflexivity. }
  destruct (path_exists (uninstall_target name)) eqn:He.
  2:{ destruct (uninstall_mod_not_found omw_cfg name clean rm (or_introl He))
        as [R _]. congruence. }
  destruct (find (fun m => String.eqb (mod_path m) (uninstall_target name))
              (get_mods (load_config (get_full_path omw_cfg)))) as [m|] eqn:Hf.
  2:{ destruct (uninstall_mod_not_found omw_cfg name clean rm (or_intror Hf))
        as [R _]. congruence. }
  destruct (uninstall_mod_found omw_cfg name clean rm m He Hf) as [_ C].
  apply find_some in Hf. destruct Hf as [Hin Heq]. apply String.eqb_eq in Heq.
  rewrite T in Heq.
  exists m. split; [exact Hin|]. split; [exact Heq|]. split.
  - assert (Hc : In (XBase (ECfgRemove (mod_entry m)))
                    (xcalls (xtrace (uninstall_mod omw_cfg name clean rm)))).
    { rewrite C. apply in_or_app. right. left. reflexivity. }
    apply filter_In in Hc. apply Hc.
  - destruct mods_dir as [|c d] eqn:Hm; [congruence|].
    rewrite list_mods_in_dir. cbn [trace fst]. apply in_map, in_map.
    apply filter_In. split; [exact Hin|]. apply String.eqb_eq.
    rewrite Hfull, Heq. apply dirname_path_join; [discriminate | exact Hs | exact Hn].
Qed.

End UninstallByName.

(** ** [install_mod] *)

Section Install.
Context {L : Library} {X : LibraryExt L}.

Lemma install_mod_run (omw_cfg src dest : string) (force : bool) :
  let ok := (is_dir (get_full_path src)
             && (is_mod_dir (get_full_path src) || force)
             && negb (path_exists (install_collision src dest)))%bool in
  let entry := mkEntry "data" (copy_to_mod_dir (get_full_path src) (get_full_path dest)) in
  xcalls (xtrace (install_mod omw_cfg src dest force))
  = (if ok
     then [XCopy (get_full_path src) (get_full_path dest); XCfgAdd entry;
           XBase ECfgWrite]
     else [])
  /\ xresult (install_mod omw_cfg src dest force)
     = (if ok
        then Ret (add_entry (load_config (get_full_path omw_cfg)) entry)
        else Exit 1%Z).
Proof.
  unfold install_mod, install_collision.
  destruct (is_dir (get_full_path src)); [|split; reflexivity].
  destruct (is_mod_dir (get_full_path src)), force; cbn [negb andb orb];
    destruct (path_exists (Py.path_join (get_full_path dest) (PyPath.basename src)));
    split; reflexivity.
Qed.

(** X18.  [install_mod] is all or nothing.  It copies the directory, adds
    a [data] entry for the directory the copy returned and writes the
    configuration, in this order, when the source is a directory, is
    detected as a mod or forced, and nothing exists at the destination
    under the last component of the source as it was typed.  Otherwise it
    exits with status 1 and has copied, added and written nothing;
    [force] lifts the mod detection and no other test. *)
Theorem install_mod_all_or_nothing (omw_cfg src dest : string) (force : bool) :
  let ok := (is_dir (get_full_path src)
             && (is_mod_dir (get_full_path src) || force)
             && negb (path_exists (install_collision src dest)))%bool in
  let entry := mkEntry "data" (copy_to_mod_dir (get_full_path src) (get_full_path dest)) in
  xcalls (xtrace (install_mod omw_cfg src dest force))
  = (if ok
     then [XCopy (get_full_path src) (get_full_path dest); XCfgAdd entry;
           XBase ECfgWrite]
     else [])
  /\ xresult (install_mod omw_cfg src dest force)
     = (if ok
        then Ret (add_entry (load_config (get_full_path omw_cfg)) entry)
        else Exit 1%Z).
Proof. apply install_mod_run. Qed.

(** X19.  A source typed with a trailing separator has an empty last
    component, so the test for a collision looks at the destination
    directory itself: when [os.path.join(dest_dir, "")] exists the
    installation is refused, forced or not. *)
Theorem install_mod_trailing_separator (omw_cfg s dest : string) (force : bool) :
  path_exists (Py.path_join (get_full_path dest) "") = true ->
  install_collision (s ++ "/") dest = Py.path_join (get_full_path dest) ""
  /\ xresult (install_mod omw_cfg (s ++ "/") dest force) = Exit 1%Z
  /\ xcalls (xtrace (install_mod omw_cfg (s ++ "/") dest force)) = [].
Proof.
  intros He.
  assert (C : install_collision (s ++ "/") dest = Py.path_join (get_full_path dest) "").
  { unfold install_collision. rewrite basename_trailing_sep. reflexivity. }
  split; [exact C|].
  destruct (install_mod_run omw_cfg (s ++ "/") dest force) as [Hc Hr].
  cbv zeta in Hc, Hr. rewrite C, He in Hc, Hr.
  rewrite andb_false_r in Hc, Hr. split; assumption.
Qed.

(** X20.  A directory whose last component is [name] is not installed
    into a destination that already holds [name]: for a source
    [os.path.join(d, name)], [name] free of separators, the collision
    path is [os.path.join(dest_dir, name)], and when it exists the command
    exits with status 1 and copies nothing, forced or not. *)
Theorem install_mod_refuses_a_taken_name (omw_cfg d name dest : string)
  (force : bool) :
  PyPath.has_sep name = false ->
  path_exists (Py.path_join (get_full_path dest) name) = true ->
  install_collision (Py.path_join d name) dest = Py.path_join (get_full_path dest) name
  /\ xresult (install_mod omw_cfg (Py.path_join d name) dest force) = Exit 1%Z
  /\ xcalls (xtrace (install_mod omw_cfg (Py.path_join d name) dest force)) = [].
Proof.
  intros Hn He.
  assert (C : install_collision (Py.path_join d name) dest
              = Py.path_join (get_full_path dest) name).
  { unfold install_collision. rewrite basename_path_join by exact Hn. reflexivity. }
  split; [exact C|].
  destruct (install_mod_run omw_cfg (Py.path_join d name) dest force) as [Hc Hr].
  cbv zeta in Hc, Hr. rewrite C, He in Hc, Hr.
  rewrite andb_false_r in Hc, Hr. split; assumption.
Qed.

End Install.

(** ** [list_plugins] *)

Section ListPlugins.
Context {L : Library} {X : LibraryExt L}.

Lemma tree_plugins_run (ps acc : list Plugin) :
  foldM tree_plugin acc ps
  = (map EPrint (map tree_enabled_line (filter plugin_enabled ps)),
     Ret (acc ++ filter (fun p => negb (plugin_enabled p)) ps)%list).
Proof.
  revert acc. induction ps as [|p ps IH]; intros acc; cbn [foldM filter map].
  - rewrite app_nil_r. reflexivity.
  - unfold tree_plugin at 1. destruct (plugin_enabled p); cbn [negb].
    + unfold print, emit, ret. cbn [bind app]. rewrite IH. reflexivity.
    + rewrite bind_ret_l, IH, <- app_assoc. reflexivity.
Qed.

Lemma tree_mod_run (m : Mod) : tree_mod m = (map EPrint (tree_block m), Ret tt).
Proof.
  unfold tree_mod, tree_block. destruct (mod_plugins m) as [|p ps]; [reflexivity|].
  change (print (mod_name m ++ ":")) with ([EPrint (mod_name m ++ ":")], @Ret unit tt).
  rewrite bind_returns. cbn beta. rewrite tree_plugins_run, bind_returns.
  cbn beta. cbn [app trace result fst snd].
  destruct (filter (fun p => negb (plugin_enabled p)) (p :: ps)) as [|q qs].
  - cbn [map trace result ret fst snd]. rewrite !app_nil_r. reflexivity.
  - rewrite for_each_prints. cbn [trace result fst snd].
    rewrite (map_cons EPrint), map_app. reflexivity.
Qed.

Lemma for_each_blocks {A} (body : A -> M unit) (block : A -> list string)
  (l : list A) :
  (forall x, body x = (map EPrint (block x), Ret tt)) ->
  for_each body l = (map EPrint (flat_map block l), Ret tt).
Proof.
  intros H. unfold for_each. induction l as [|x l IH]; cbn [foldM flat_map];
    [reflexivity|].
  rewrite H, bind_returns. cbn beta. rewrite IH, map_app. reflexivity.
Qed.

(** X21.  [list_plugins] only prints, and returns.  In the tree view a
    mod without plugins prints nothing, and a mod with plugins prints its
    name, then its enabled plugins with their load order, then its
    disabled plugins, each plugin once and each group in the order of the
    mod.  In the flat view the enabled plugins come first, then the
    disabled ones.  Either view ends with the warning and the names of
    the orphaned plugins, when there are any. *)
Theorem list_plugins_lines (omw_cfg : string) (tree : bool) :
  let cfg := load_config (get_full_path omw_cfg) in
  list_plugins omw_cfg tree
  = (map EPrint
       ((if tree then flat_map tree_block (get_mods cfg)
         else map enabled_line (get_enabled_plugins cfg)
              ++ map disabled_line (get_disabled_plugins cfg))
        ++ match get_orphaned_plugins cfg with
           | [] => []
           | orphaned => orphan_warning :: orphaned
           end)%list,
     Ret tt).
Proof.
  intros cfg. unfold list_plugins. fold cfg.
  assert (O : (match get_orphaned_plugins cfg with
               | [] => ret tt
               | _ :: _ => print orphan_warning ;;; for_each print (get_orphaned_plugins cfg)
               end)
              = (map EPrint match get_orphaned_plugins cfg with
                            | [] => []
                            | orphaned => orphan_warning :: orphaned
                            end, Ret tt)).
  { destruct (get_orphaned_plugins cfg) as [|o os]; [reflexivity|].
    unfold print at 1, emit. cbn [bind].
    rewrite (for_each_prints (fun x => x)), map_id. reflexivity. }
  destruct tree.
  - rewrite (for_each_blocks tree_mod tree_block) by apply tree_mod_run.
    rewrite bind_returns.
    destruct (get_orphaned_plugins cfg) as [|o os] eqn:Ho.
    + cbn [trace result ret fst snd]. rewrite !app_nil_r. reflexivity.
    + rewrite O. cbn [trace result fst snd]. rewrite map_app. reflexivity.
  - rewrite !for_each_prints, bind_returns. cbn [trace result fst snd].
    rewrite bind_returns.
    destruct (get_orphaned_plugins cfg) as [|o os] eqn:Ho.
    + cbn [trace result ret fst snd]. rewrite !app_nil_r, map_app. reflexivity.
    + rewrite O. cbn [trace result fst snd]. rewrite !map_app. reflexivity.
Qed.

End ListPlugins.

(** ** The properties above on the test double *)

Lemma merge_lists_write_is_last_witness :
  exists t,
    trace (@merge_lists Double.lib "two.cfg" (Some "out.esp"))
    = (t ++ [EEsmWrite "out.esp"])%list
    /\ writes t = []
    /\ trace (@merge_lists Double.lib "two.cfg" (Some ""))
       = trace (@merge_lists Double.lib "two.cfg" None).
Proof.
  apply (@merge_lists_write_is_last Double.lib "two.cfg" (Some "out.esp")).
  vm_compute. discriminate.
Defined.

Lemma merge_lists_nothing_selected_witness :
  @merge_lists DoubleExt.idle_lib "any.cfg" None
  = ([EParse "/opt/omw/./empty.esp"; EEsmWrite "./Merged_Lists.esp"],
     Ret ["/opt/omw/./empty.esp"]).
Proof.
  apply (@merge_lists_nothing_selected DoubleExt.idle_lib "any.cfg" None).
  - vm_compute. discriminate.
  - reflexivity.
Defined.

Lemma comma_name_is_never_excluded_witness :
  In (EMerge DoubleExt.odd) (trace (@merge_lists DoubleExt.comma_lib "any.cfg" None))
  <-> In DoubleExt.odd (@listed_plugins DoubleExt.comma_lib "any.cfg")
      /\ plugin_enabled DoubleExt.odd = true.
Proof.
  apply (@comma_name_is_never_excluded DoubleExt.comma_lib "any.cfg" None DoubleExt.odd).
  simpl. tauto.
Defined.

Lemma list_mods_lists_the_mods_of_a_directory_witness :
  In (EPrint "rats") (trace (@list_mods Double.lib "two.cfg" (Some "/mods") false))
  /\ In (EPrint "/mods/rats") (trace (@list_mods Double.lib "two.cfg" (Some "/mods") true)).
Proof.
  apply (@list_mods_lists_the_mods_of_a_directory Double.lib "two.cfg" "/mods" "rats"
           (mkMod "rats" "/mods/rats" [Double.rats])).
  - discriminate.
  - vm_compute. discriminate.
  - reflexivity.
  - reflexivity.
  - left. reflexivity.
  - reflexivity.
Defined.

Lemma uninstall_mod_refusals_witness :
  xresult (@uninstall_mod Double.lib DoubleExt.lib "two.cfg" "newts" true true)
  = Exit 1%Z
  /\ xcalls (xtrace (@uninstall_mod Double.lib DoubleExt.lib "two.cfg" "newts" true true))
     = [].
Proof.
  apply (@uninstall_mod_refusals Double.lib DoubleExt.lib "two.cfg" "newts" true true).
  left. reflexivity.
Defined.

Lemma uninstall_mod_calls_witness :
  xcalls (xtrace (@uninstall_mod Double.lib DoubleExt.lib "two.cfg" "bats" true true))
  = [XBase (EDisable Double.bats); XBase (EDisable Double.gnats);
     XBase (ECfgRemove (mkEntry "data" "/mods/bats")); XBase ECfgWrite;
     XRmModDir "/mods/bats"]
  /\ xresult (@uninstall_mod Double.lib DoubleExt.lib "two.cfg" "bats" true true)
     = Ret (@cfg_remove Double.lib
              (@plugin_disable Double.lib Double.gnats
                 (@plugin_disable Double.lib Double.bats Double.two_mods))
              (mkEntry "data" "/mods/bats")).
Proof.
  apply (@uninstall_mod_calls Double.lib DoubleExt.lib "two.cfg" "bats" true true
           (mkMod "bats" "/mods/bats" [Double.bats; Double.cats; Double.gnats]));
    reflexivity.
Defined.

Lemma uninstall_mod_deletes_only_on_request_witness :
  true = true
  /\ "/mods/bats" = @uninstall_target Double.lib DoubleExt.lib "bats"
  /\ @path_exists Double.lib "/mods/bats" = true
  /\ (exists m, In m (@get_mods Double.lib (@load_config Double.lib "two.cfg"))
                /\ mod_path m = "/mods/bats")
  /\ In (XBase ECfgWrite)
       (xtrace (@uninstall_mod Double.lib DoubleExt.lib "two.cfg" "bats" false true)).
Proof.
  apply (@uninstall_mod_deletes_only_on_request Double.lib DoubleExt.lib
           "two.cfg" "bats" "/mods/bats" false true).
  vm_compute. repeat (try (left; reflexivity); right).
Defined.

Lemma uninstall_by_name_removes_a_listed_mod_witness :
  exists m,
    In m (@get_mods Double.lib (@load_config Double.lib "two.cfg"))
    /\ mod_path m = Py.path_join "/mods" "bats"
    /\ In (XBase (ECfgRemove (@mod_entry Double.lib DoubleExt.lib m)))
         (xtrace (@uninstall_mod Double.lib DoubleExt.lib "two.cfg" "bats" true false))
    /\ In (EPrint (mod_name m))
         (trace (@list_mods Double.lib "two.cfg" (Some "/mods") false)).
Proof.
  eapply (@uninstall_by_name_removes_a_listed_mod Double.lib DoubleExt.lib
            "two.cfg" "bats" true false).
  - reflexivity.
  - discriminate.
  - reflexivity.
  - reflexivity.
  - reflexivity.
Defined.

Lemma install_mod_trailing_separator_witness :
  @install_collision DoubleExt.slash_lib "/src/newts/" "/mods" = "/mods/"
  /\ xresult (@install_mod DoubleExt.slash_lib DoubleExt.slash_ext
                "two.cfg" "/src/newts/" "/mods" true) = Exit 1%Z
  /\ xcalls (xtrace (@install_mod DoubleExt.slash_lib DoubleExt.slash_ext
                       "two.cfg" "/src/newts/" "/mods" true)) = [].
Proof.
  apply (@install_mod_trailing_separator DoubleExt.slash_lib DoubleExt.slash_ext
           "two.cfg" "/src/newts" "/mods" true).
  reflexivity.
Defined.

Lemma install_mod_refuses_a_taken_name_witness :
  (@is_dir Double.lib DoubleExt.taken_ext (@get_full_path Double.lib "/src/rats") = true
   /\ xtrace (@install_mod Double.lib DoubleExt.taken_ext "two.cfg"
                (Py.path_join "/src" "rats") "/mods" true)
      = [XBase (EPrint "A file rats already exists in /mods. Try renaming the mod or supplying a different destination.")])
  /\ @install_collision Double.lib (Py.path_join "/src" "rats") "/mods" = "/mods/rats"
  /\ xresult (@install_mod Double.lib DoubleExt.taken_ext "two.cfg"
                (Py.path_join "/src" "rats") "/mods" true) = Exit 1%Z
  /\ xcalls (xtrace (@install_mod Double.lib DoubleExt.taken_ext "two.cfg"
                       (Py.path_join "/src" "rats") "/mods" true)) = [].
Proof.
  split; [split; reflexivity|].
  apply (@install_mod_refuses_a_taken_name Double.lib DoubleExt.taken_ext
           "two.cfg" "/src" "rats" "/mods" true); reflexivity.
Defined.

Example install_mod_newts :
  xtrace (@install_mod Double.lib DoubleExt.lib "two.cfg" "/src/newts" "/mods" false)
  = [XBase (EPrint "Copying /src/newts to /mods");
     XCopy "/src/newts" "/mods";
     XBase (EPrint "Adding entry data=/mods/newts to openmw.cfg");
     XCfgAdd (mkEntry "data" "/mods/newts");
     XBase ECfgWrite].
Proof. reflexivity. Qed.

Example list_plugins_tree_two_mods :
  trace (@list_plugins Double.lib DoubleExt.lib "two.cfg" true)
  = [EPrint "rats:"; EPrint (tab ++ "(8) Rats.esp");
     EPrint "bats:"; EPrint (tab ++ "(8) Bats.esp"); EPrint (tab ++ "(9) Gnats.esp");
     EPrint (tab ++ "- Cats.esp")].
Proof. reflexivity. Qed.

Example dirname_basename_samples :
  map PyPath.dirname ["/a/b/c"; "/a/b/"; "abc"; "/"; "//a"; "/a//b"]
  = ["/a/b"; "/a/b"; ""; "/"; "//"; "/a"]
  /\ map PyPath.basename ["/a/b/c"; "/a/b/"; "abc"; "/"] = ["c"; ""; "abc"; ""].
Proof. split; reflexivity. Qed.
